(** * exp_mpi.py: the MPI string-matching benchmark harness

    A shallow embedding of [src/exp_mpi.py] and the properties of its
    experiment runner ([run_experiment]) and of its sweep and speedup
    analysis ([main]).

    - Python floats and numpy's float64 are IEEE 754 binary64 numbers:
      they are modelled by [spec_float] with the operations of the
      standard library's [SpecFloat] at precision 53.
    - Text is a [string] of code points below 256.
    - The child processes, the file system and the two interpreter
      settings the code depends on are gathered in a [host].
    - Statements run in a small monad that threads the [world] (the
      processes launched and what was printed or saved) and carries Python
      exceptions, so that [try]/[except] is a combinator and "does not
      raise" is a property to prove, not a convention. *)

From Stdlib Require Import ZArith List String Ascii Bool Lia.
From Stdlib Require Import Floats.SpecFloat DecimalString.
Import ListNotations.

Local Open Scope string_scope.
Local Open Scope list_scope.
Local Open Scope Z_scope.

(* ===================================================================== *)
(** * Binary64 arithmetic *)
(* ===================================================================== *)

Module Float64.

Definition prec : Z := 53.
Definition emax : Z := 1024.

Definition float := spec_float.

Definition add : float -> float -> float := SFadd prec emax.
Definition sub : float -> float -> float := SFsub prec emax.
Definition mul : float -> float -> float := SFmul prec emax.
Definition div : float -> float -> float := SFdiv prec emax.
Definition abs : float -> float := SFabs.

Definition ltb : float -> float -> bool := SFltb.
Definition leb : float -> float -> bool := SFleb.
Definition gtb (x y : float) : bool := SFltb y x.
Definition geb (x y : float) : bool := SFleb y x.

(** Conversion of an integer, rounded to nearest even. *)
Definition of_Z (n : Z) : float := binary_normalize prec emax n 0 false.

(** The binary64 number nearest to [n / d], for [0 <= n] and [0 < d]:
    the quotient is computed with enough bits and the position of the
    remainder, then rounded once. *)
Definition of_ratio (n d : Z) : float :=
  match n with
  | Z0 => S754_zero false
  | _ =>
      let '(mz, ez, lz) := SFdiv_core_binary prec emax n 0 d 0 in
      binary_round_aux prec emax false mz ez lz
  end.

Definition zero : float := S754_zero false.
Definition one : float := Eval vm_compute in of_Z 1.
Definition hundred : float := Eval vm_compute in of_Z 100.

Definition is_nan (x : float) : bool :=
  match x with S754_nan => true | _ => false end.

Definition is_finite (x : float) : bool :=
  match x with S754_zero _ | S754_finite _ _ _ => true | _ => false end.

Definition is_zero (x : float) : bool :=
  match x with S754_zero _ => true | _ => false end.

(** Zero, a positive number or plus infinity. *)
Definition is_nonneg (x : float) : bool :=
  match x with
  | S754_zero _ | S754_infinity false | S754_finite false _ _ => true
  | _ => false
  end.

End Float64.

Abbreviation float := Float64.float.

(* ===================================================================== *)
(** * Text: the two patterns and the numeric conversions *)
(* ===================================================================== *)

Module Text.

Definition code (c : ascii) : Z := Z.of_N (N_of_ascii c).

(** [\d] of a [str] pattern: the decimal digits; below 256 these are
    '0'..'9' only. *)
Definition is_digit (c : ascii) : bool :=
  (48 <=? code c) && (code c <=? 57).

(** [\s] of a [str] pattern: the characters for which [str.isspace] holds;
    below 256 these are 9..13, 28..32, 133 and 160. *)
Definition is_space (c : ascii) : bool :=
  ((9 <=? code c) && (code c <=? 13))
  || ((28 <=? code c) && (code c <=? 32))
  || (code c =? 133) || (code c =? 160).

(** [[\d.]] *)
Definition is_digit_or_dot (c : ascii) : bool :=
  is_digit c || (code c =? 46).

Fixpoint take_while (f : ascii -> bool) (s : string) : string :=
  match s with
  | String c s' => if f c then String c (take_while f s') else EmptyString
  | EmptyString => EmptyString
  end.

Fixpoint drop_while (f : ascii -> bool) (s : string) : string :=
  match s with
  | String c s' => if f c then drop_while f s' else s
  | EmptyString => EmptyString
  end.

Fixpoint all_chars (f : ascii -> bool) (s : string) : bool :=
  match s with
  | String c s' => f c && all_chars f s'
  | EmptyString => true
  end.

(** [strip_prefix p s] is the rest of [s] after the literal [p]. *)
Fixpoint strip_prefix (p s : string) : option string :=
  match p, s with
  | EmptyString, _ => Some s
  | String a p', String b s' =>
      if Ascii.eqb a b then strip_prefix p' s' else None
  | String _ _, EmptyString => None
  end.

(** A pattern [label \s* ( cls+ )] matched at the start of [s]; the
    result is the group.  Both repetitions are greedy; the classes of
    [\s] and of the group are disjoint, so giving back white space never
    helps and the first attempt decides. *)
Definition match_here (label : string) (cls : ascii -> bool) (s : string)
  : option string :=
  match strip_prefix label s with
  | None => None
  | Some rest =>
      match take_while cls (drop_while is_space rest) with
      | EmptyString => None
      | g => Some g
      end
  end.

(** [re.search]: the match at the leftmost position that has one. *)
Fixpoint search (label : string) (cls : ascii -> bool) (s : string)
  : option string :=
  match match_here label cls s with
  | Some g => Some g
  | None =>
      match s with
      | String _ s' => search label cls s'
      | EmptyString => None
      end
  end.

(** [re.search(r'Matches:\s*(\d+)', output)], as [m.group(1)]. *)
Definition match_pattern (output : string) : option string :=
  search "Matches:" is_digit output.

(** [re.search(r'Time\(s\):\s*([\d.]+)', output)], as [t.group(1)]. *)
Definition time_pattern (output : string) : option string :=
  search "Time(s):" is_digit_or_dot output.

(** The number written by a string of decimal digits. *)
Fixpoint decimal_value (acc : Z) (s : string) : Z :=
  match s with
  | String c s' => decimal_value (10 * acc + (code c - 48)) s'
  | EmptyString => acc
  end.

(** [int(s)] for a string of digits, the only arguments the harness
    passes.  An interpreter with a digit limit
    ([sys.get_int_max_str_digits()]: 4300 by default since CPython 3.11, 0
    for none) raises [ValueError] on a string of more digits than the
    limit, which it checks on strings of more than 640 digits: [None]
    here. *)
Definition py_int (int_max_str_digits : nat) (s : string) : option Z :=
  if all_chars is_digit s && negb (Nat.eqb (String.length s) 0) then
    if negb (Nat.eqb int_max_str_digits 0)
       && Nat.ltb 640 (String.length s)
       && Nat.ltb int_max_str_digits (String.length s)
    then None
    else Some (decimal_value 0 s)
  else None.

(** [float(s)] for a string over the alphabet of [[\d.]], the only
    arguments the harness passes: digits with at most one point and at
    least one digit, converted to the nearest binary64 number (a number
    too large becomes infinity).  Anything else raises [ValueError]:
    [None] here. *)
Definition py_float (s : string) : option float :=
  let int_part := take_while is_digit s in
  match drop_while is_digit s with
  | EmptyString =>
      match int_part with
      | EmptyString => None
      | _ => Some (Float64.of_ratio (decimal_value 0 int_part) 1)
      end
  | String c frac =>
      if (code c =? 46) && all_chars is_digit frac then
        match (int_part ++ frac)%string with
        | EmptyString => None
        | digits =>
            Some (Float64.of_ratio (decimal_value 0 digits)
                                   (10 ^ Z.of_nat (String.length frac)))
        end
      else None
  end.

(** [s] holds the literal [label], then white space or none, then a
    character of the class [cls]. *)
Definition occurs (label : string) (cls : ascii -> bool) (s : string) : Prop :=
  exists pre ws c rest,
    s = (pre ++ label ++ ws ++ String c rest)%string
    /\ all_chars is_space ws = true /\ cls c = true.

(** [s] is empty or starts with a character outside the class [cls]. *)
Definition stops (cls : ascii -> bool) (s : string) : Prop :=
  match s with
  | EmptyString => True
  | String c _ => cls c = false
  end.

End Text.

(* ===================================================================== *)
(** * The harness *)
(* ===================================================================== *)

Module Harness.

Import Text.

(** ** Exceptions, child processes and the host *)

(** The exceptions the code can meet; all are subclasses of [Exception].
    [OtherError] stands for whatever else [subprocess.run] raises when
    the program cannot be started or its output cannot be decoded. *)
Inductive exn :=
| TimeoutExpired
| ValueError
| ZeroDivisionError
| IndexError
| OtherError (name : string).

(** What one call of [subprocess.run(cmd, capture_output=True, text=True,
    timeout=600)] does: it returns a [CompletedProcess] or raises. *)
Inductive proc_outcome :=
| Completed (returncode : Z) (stdout stderr : string)
| Raises (e : exn).

(** The surroundings of one run of the script: what the [k]-th child
    process launched does (counted from 0), which paths exist, and two
    settings of the interpreter: the digit limit of [int] and whether
    [sum] compensates float additions (CPython 3.12 and later). *)
Record host := {
  subprocess_run : nat -> list string -> proc_outcome;
  path_exists : string -> bool;
  int_max_str_digits : nat;
  compensated_sum : bool
}.

(** ** Results *)

(** An entry of [results]: [{'matches': ..., 'time': ...}]. *)
Record trial := {
  t_matches : Z;
  t_time : float
}.

(** The dictionary [run_experiment] returns, later a row of [df]. *)
Record cell := {
  algorithm : string;
  ranks : Z;
  matches : Z;
  time : float;
  min_time : float;
  max_time : float
}.

(** One line of the speedup analysis. *)
Record metric := {
  m_ranks : Z;
  speedup : float;
  efficiency : float
}.

(** The data handed to matplotlib: per algorithm the time curve, per
    algorithm with a baseline the speedup curve, and the ideal line. *)
Record figure := {
  time_curves : list (string * list Z * list float);
  speedup_curves : list (string * list Z * list float);
  ideal : list Z
}.

(** ** The world: launches and output *)

Inductive message :=
| Line (s : string)                              (* a line of plain text *)
| Running (ranks : Z)                            (* line 114, no newline *)
| ExceptionRunning (algorithm_name : string) (e : exn)       (* line 74 *)
| Succeeded (time : float) (matches : Z)                     (* line 123 *)
| Failed                                                     (* line 125 *)
| Table (df : list cell)                                     (* line 138 *)
| SpeedupLine (ranks : Z) (speedup efficiency : float).      (* line 160 *)

Inductive event :=
| Print (m : message)
| ToCsv (file : string) (df : list cell)
| SaveFig (file : string) (fig : figure).

Record world := {
  launches : list (list string);   (* the commands run so far *)
  output : list event              (* what was printed and saved so far *)
}.

(** ** Statements *)

Inductive result (A : Type) :=
| Val (a : A)
| Exc (e : exn).
Arguments Val {A} a.
Arguments Exc {A} e.

Definition and_then {A B} (r : result A) (k : A -> result B) : result B :=
  match r with
  | Val a => k a
  | Exc e => Exc e
  end.

Definition py (A : Type) : Type := world -> result A * world.

Definition ret {A} (a : A) : py A := fun w => (Val a, w).

Definition raise {A} (e : exn) : py A := fun w => (Exc e, w).

Definition bind {A B} (c : py A) (k : A -> py B) : py B :=
  fun w =>
    match c w with
    | (Val a, w') => k a w'
    | (Exc e, w') => (Exc e, w')
    end.

(** [try: c  except Exception as e: handler e] *)
Definition try_except {A} (c : py A) (handler : exn -> py A) : py A :=
  fun w =>
    match c w with
    | (Val a, w') => (Val a, w')
    | (Exc e, w') => handler e w'
    end.

Notation "x <- c ;; k" := (bind c (fun x => k))
  (at level 61, c at next level, right associativity).
Notation "c ;; k" := (bind c (fun _ => k))
  (at level 61, right associativity).

Definition of_result {A} (r : result A) : py A := fun w => (r, w).

Definition print (m : message) : py unit :=
  fun w => (Val tt, {| launches := launches w; output := output w ++ [Print m] |}).

Definition emit (e : event) : py unit :=
  fun w => (Val tt, {| launches := launches w; output := output w ++ [e] |}).

(** [subprocess.run]: the launch is recorded, and the host decides what
    the child does. *)
Definition run (h : host) (cmd : list string) : py (Z * string * string) :=
  fun w =>
    let w' := {| launches := launches w ++ [cmd]; output := output w |} in
    match subprocess_run h (List.length (launches w)) cmd with
    | Completed returncode stdout stderr => (Val (returncode, stdout, stderr), w')
    | Raises e => (Exc e, w')
    end.

(** ** Builtins *)

Definition nl : string := String (ascii_of_nat 10) EmptyString.

(** [str(n)] *)
Definition str (n : Z) : string := NilZero.string_of_int (Z.to_int n).

(** A call that raises [ValueError] where the conversion has no value. *)
Definition converted {A} (o : option A) : result A :=
  match o with
  | Some a => Val a
  | None => Exc ValueError
  end.

(** One step of the compensated summation of CPython 3.12 (Neumaier):
    the running sum and the running compensation. *)
Definition compensated_step (acc : float * float) (x : float) : float * float :=
  let '(f_result, c) := acc in
  let t := Float64.add f_result x in
  if Float64.geb (Float64.abs f_result) (Float64.abs x)
  then (t, Float64.add c (Float64.add (Float64.sub f_result t) x))
  else (t, Float64.add c (Float64.add (Float64.sub x t) f_result)).

(** [sum(xs)] for floats [xs]: the start value is the integer 0, the
    first item is added to it, and the others are added from left to
    right, plainly or compensated. *)
Definition py_sum (h : host) (xs : list float) : float :=
  match xs with
  | [] => Float64.zero
  | x :: rest =>
      let first := Float64.add (Float64.of_Z 0) x in
      if compensated_sum h then
        let '(f_result, c) := fold_left compensated_step rest (first, Float64.zero) in
        if negb (Float64.is_zero c) && Float64.is_finite c
        then Float64.add f_result c
        else f_result
      else fold_left Float64.add rest first
  end.

(** [min(xs)]: the first item, replaced by each later item that is
    smaller; [ValueError] on an empty sequence. *)
Definition py_min (xs : list float) : result float :=
  match xs with
  | [] => Exc ValueError
  | x :: rest =>
      Val (fold_left (fun best item => if Float64.ltb item best then item else best)
                     rest x)
  end.

(** [max(xs)]: the first item, replaced by each later item that is
    greater. *)
Definition py_max (xs : list float) : result float :=
  match xs with
  | [] => Exc ValueError
  | x :: rest =>
      Val (fold_left (fun best item => if Float64.gtb item best then item else best)
                     rest x)
  end.

(** [x / n] for a float [x] and an integer [n]. *)
Definition truediv (x : float) (n : Z) : result float :=
  if n =? 0 then Exc ZeroDivisionError
  else Val (Float64.div x (Float64.of_Z n)).

(** [xs[0]] *)
Definition first_item {A} (xs : list A) : result A :=
  match xs with
  | x :: _ => Val x
  | [] => Exc IndexError
  end.

(** ** run_experiment *)

(** How one pass through the body of the loop ends: with [return None],
    or at the end of the body with the list [results] as it then is. *)
Inductive flow :=
| ReturnNone
| Next (results : list trial).

Definition command (executable : string) (ranks : Z)
           (pattern_file text_file : string) : list string :=
  ["mpirun"; "-np"; str ranks; executable; pattern_file; text_file].

(** Lines 49 to 62: the two searches and the two conversions; the
    conversion of the count comes first. *)
Definition parse (h : host) (output : string) : result (option Z * option float) :=
  and_then
    match match_pattern output with
    | Some g => and_then (converted (py_int (int_max_str_digits h) g))
                         (fun v => Val (Some v))
    | None => Val None
    end
    (fun matches =>
       and_then
         match time_pattern output with
         | Some g => and_then (converted (py_float g)) (fun v => Val (Some v))
         | None => Val None
         end
         (fun exec_time => Val (matches, exec_time))).

(** Lines 28 to 75: the body of [for _ in range(repeat)]. *)
Definition attempt (h : host) (algorithm_name : string) (ranks : Z)
           (cmd : list string) (results : list trial) : py flow :=
  try_except
    (result <- run h cmd ;;
     let '(returncode, stdout, stderr) := result in
     if negb (returncode =? 0) then
       print (Line ("Error running " ++ algorithm_name ++ " with "
                      ++ str ranks ++ " ranks:")) ;;
       print (Line stderr) ;;
       ret ReturnNone
     else
       parsed <- of_result (parse h stdout) ;;
       match parsed with
       | (Some matches, Some exec_time) =>
           ret (Next (results ++ [{| t_matches := matches; t_time := exec_time |}]))
       | _ => ret (Next results)
       end)
    (fun e =>
       match e with
       | TimeoutExpired =>
           print (Line ("Timeout for " ++ algorithm_name ++ " with "
                          ++ str ranks ++ " ranks")) ;;
           ret ReturnNone
       | _ =>
           print (ExceptionRunning algorithm_name e) ;;
           ret ReturnNone
       end).

(** The loop of lines 27 to 75, for [repeat] passes ([range] of a count
    that is not positive is empty); [None] when a pass returned. *)
Fixpoint attempts (h : host) (algorithm_name : string) (ranks : Z)
         (cmd : list string) (repeat : nat) (results : list trial)
  : py (option (list trial)) :=
  match repeat with
  | O => ret (Some results)
  | S repeat' =>
      f <- attempt h algorithm_name ranks cmd results ;;
      match f with
      | ReturnNone => ret None
      | Next results' => attempts h algorithm_name ranks cmd repeat' results'
      end
  end.

(** Lines 80 to 91, on a list [results]. *)
Definition summary (h : host) (algorithm_name : string) (ranks : Z)
           (results : list trial) : result cell :=
  and_then (truediv (py_sum h (map t_time results))
                    (Z.of_nat (List.length results)))
    (fun avg_time =>
       and_then (first_item results)
         (fun r0 =>
            and_then (py_min (map t_time results))
              (fun lo =>
                 and_then (py_max (map t_time results))
                   (fun hi =>
                      Val {| algorithm := algorithm_name;
                             ranks := ranks;
                             matches := t_matches r0;
                             time := avg_time;
                             min_time := lo;
                             max_time := hi |})))).

Definition run_experiment (h : host) (algorithm_name executable : string)
           (ranks : Z) (pattern_file text_file : string) (repeat : nat)
  : py (option cell) :=
  looped <- attempts h algorithm_name ranks
              (command executable ranks pattern_file text_file) repeat [] ;;
  match looped with
  | None => ret None
  | Some [] => ret None
  | Some results =>
      c <- of_result (summary h algorithm_name ranks results) ;;
      ret (Some c)
  end.

(** ** main *)

(** The module-level constants of lines 10 to 21. *)
Record config := {
  PAT_FILE : string;
  TEXT_FILE : string;
  ALGORITHMS : list (string * string);   (* name, executable; in order *)
  RANK_CONFIGS : list Z
}.

Definition source_config : config := {|
  PAT_FILE := "/work/u8449362/data_density/density_pattern_len64_pattern.txt";
  TEXT_FILE := "/work/u8449362/data_density/density_case_050_d3.35e-04_text.txt";
  ALGORITHMS := [("BF", "/home/u8449362/PP-Final-Project/bf/bf_mpi");
                 ("BM", "/home/u8449362/PP-Final-Project/bm/bm_mpi");
                 ("RK", "/home/u8449362/PP-Final-Project/rk/rk_mpi")];
  RANK_CONFIGS := [1; 2; 4; 8; 16; 32]
|}.

(** ["=" * 60] *)
Definition rule : string :=
  "============================================================".

(** [repr] of a list of integers. *)
Definition repr_list (l : list Z) : string :=
  "[" ++ String.concat ", " (map str l) ++ "]".

(** Lines 113 to 125: the loop over [RANK_CONFIGS] for one algorithm. *)
Fixpoint for_ranks (h : host) (cfg : config) (algo_name executable : string)
         (rank_configs : list Z) (all_results : list cell) : py (list cell) :=
  match rank_configs with
  | [] => ret all_results
  | ranks :: rest =>
      print (Running ranks) ;;
      result <- run_experiment h algo_name executable ranks
                  (PAT_FILE cfg) (TEXT_FILE cfg) 3 ;;
      match result with
      | Some r =>
          print (Succeeded (time r) (matches r)) ;;
          for_ranks h cfg algo_name executable rest (all_results ++ [r])
      | None =>
          print Failed ;;
          for_ranks h cfg algo_name executable rest all_results
      end
  end.

(** Lines 105 to 125: the loop over [ALGORITHMS.items()]. *)
Fixpoint for_algorithms (h : host) (cfg : config)
         (algorithms : list (string * string)) (all_results : list cell)
  : py (list cell) :=
  match algorithms with
  | [] => ret all_results
  | (algo_name, executable) :: rest =>
      print (Line (nl ++ "Testing " ++ algo_name ++ "...")) ;;
      if negb (path_exists h executable) then
        print (Line ("  Warning: " ++ executable ++ " not found. Skipping.")) ;;
        for_algorithms h cfg rest all_results
      else
        all_results' <- for_ranks h cfg algo_name executable
                          (RANK_CONFIGS cfg) all_results ;;
        for_algorithms h cfg rest all_results'
  end.

(** [df['algorithm'].unique()]: the values in order of first appearance. *)
Fixpoint unique (seen names : list string) : list string :=
  match names with
  | [] => []
  | n :: rest =>
      if existsb (String.eqb n) seen then unique seen rest
      else n :: unique (n :: seen) rest
  end.

Definition algorithms_of (df : list cell) : list string :=
  unique [] (map algorithm df).

(** [df[df['algorithm'] == algo]] *)
Definition rows_of (df : list cell) (algo : string) : list cell :=
  filter (fun row => String.eqb (algorithm row) algo) df.

(** [algo_df[algo_df['ranks'] == 1]['time'].values] *)
Definition base_times (algo_df : list cell) : list float :=
  map time (filter (fun row => ranks row =? 1) algo_df).

(** Lines 158 and 159.  [base_time] is a numpy float64, so both divisions
    are numpy's: a zero divisor gives an infinity or NaN, not an exception.
    The integer [ranks] is converted to binary64, exactly when it is below
    2^53 in magnitude. *)
Definition metric_of (base_time : float) (row : cell) : metric :=
  let speedup := Float64.div base_time (time row) in
  {| m_ranks := ranks row;
     speedup := speedup;
     efficiency := Float64.mul (Float64.div speedup (Float64.of_Z (ranks row)))
                               Float64.hundred |}.

(** Lines 157 to 160: the loop over the rows of one algorithm. *)
Fixpoint for_rows (base_time : float) (rows : list cell) : py unit :=
  match rows with
  | [] => ret tt
  | row :: rest =>
      let m := metric_of base_time row in
      print (SpeedupLine (m_ranks m) (speedup m) (efficiency m)) ;;
      for_rows base_time rest
  end.

(** Lines 151 to 160: the analysis of one algorithm. *)
Definition analyse (df : list cell) (algo : string) : py unit :=
  let algo_df := rows_of df algo in
  match base_times algo_df with
  | base_time :: _ =>
      print (Line (nl ++ algo ++ ":")) ;;
      for_rows base_time algo_df
  | [] => ret tt
  end.

(** Line 150: the loop over the algorithms. *)
Fixpoint speedup_analysis (df : list cell) (algos : list string) : py unit :=
  match algos with
  | [] => ret tt
  | algo :: rest => analyse df algo ;; speedup_analysis df rest
  end.

(** Lines 171 to 196: what is plotted. *)
Definition time_curve (df : list cell) (algo : string) : string * list Z * list float :=
  let algo_df := rows_of df algo in
  (algo, map ranks algo_df, map time algo_df).

Definition speedup_curve (df : list cell) (algo : string)
  : list (string * list Z * list float) :=
  let algo_df := rows_of df algo in
  match base_times algo_df with
  | base_time :: _ =>
      [(algo, map ranks algo_df,
        map (fun t => Float64.div base_time t) (map time algo_df))]
  | [] => []
  end.

Definition plots (cfg : config) (df : list cell) : figure :=
  {| time_curves := map (time_curve df) (algorithms_of df);
     speedup_curves := flat_map (speedup_curve df) (algorithms_of df);
     ideal := RANK_CONFIGS cfg |}.

(** Lines 94 to 101. *)
Definition header (cfg : config) : py unit :=
  print (Line rule) ;;
  print (Line "MPI String Matching Algorithm Comparison") ;;
  print (Line rule) ;;
  print (Line ("Pattern file: " ++ PAT_FILE cfg)) ;;
  print (Line ("Text file: " ++ TEXT_FILE cfg)) ;;
  print (Line ("Algorithms: " ++ String.concat ", " (map fst (ALGORITHMS cfg)))) ;;
  print (Line ("Rank configurations: " ++ repr_list (RANK_CONFIGS cfg))) ;;
  print (Line rule).

(** Lines 131 to 213: the table, the CSV file, the analysis and the plot. *)
Definition present (cfg : config) (df : list cell) : py unit :=
  print (Line (nl ++ rule)) ;;
  print (Line "RESULTS SUMMARY") ;;
  print (Line rule) ;;
  print (Table df) ;;
  emit (ToCsv "mpi_comparison_results.csv" df) ;;
  print (Line (nl ++ "Results saved to mpi_comparison_results.csv")) ;;
  print (Line (nl ++ rule)) ;;
  print (Line "SPEEDUP ANALYSIS (relative to 1 rank)") ;;
  print (Line rule) ;;
  speedup_analysis df (algorithms_of df) ;;
  print (Line (nl ++ rule)) ;;
  print (Line "GENERATING PLOTS") ;;
  print (Line rule) ;;
  emit (SaveFig "mpi_comparison_plot.png" (plots cfg df)) ;;
  print (Line "Plot saved to mpi_comparison_plot.png") ;;
  print (Line (nl ++ rule)) ;;
  print (Line "EXPERIMENT COMPLETE") ;;
  print (Line rule).

Definition main (h : host) (cfg : config) : py unit :=
  header cfg ;;
  all_results <- for_algorithms h cfg (ALGORITHMS cfg) [] ;;
  match all_results with
  | [] =>
      print (Line (nl ++ "No results collected!")) ;;
      ret tt
  | _ => present cfg all_results
  end.

(** ** The trials of a cell, as the loop treats them

    These definitions are not code of the script: they name what a pass
    through the loop does with the outcome of its child process, so that
    the properties of [run_experiment] can be stated on the outcomes. *)

Inductive verdict :=
| Aborts                 (* the pass returns [None] *)
| Skipped                (* the pass ends and appends nothing *)
| Yields (t : trial).    (* the pass ends and appends [t] *)

Definition verdict_of (h : host) (o : proc_outcome) : verdict :=
  match o with
  | Raises _ => Aborts
  | Completed returncode stdout _ =>
      if returncode =? 0 then
        match parse h stdout with
        | Exc _ => Aborts
        | Val (Some m, Some t) => Yields {| t_matches := m; t_time := t |}
        | Val _ => Skipped
        end
      else Aborts
  end.

(** What the handlers print for an exception. *)
Definition handled (algorithm_name : string) (ranks : Z) (e : exn) : list event :=
  match e with
  | TimeoutExpired =>
      [Print (Line ("Timeout for " ++ algorithm_name ++ " with "
                      ++ str ranks ++ " ranks"))]
  | _ => [Print (ExceptionRunning algorithm_name e)]
  end.

(** What a pass prints, by the outcome of its child process. *)
Definition report (h : host) (algorithm_name : string) (ranks : Z)
           (o : proc_outcome) : list event :=
  match o with
  | Raises e => handled algorithm_name ranks e
  | Completed returncode stdout stderr =>
      if returncode =? 0 then
        match parse h stdout with
        | Exc e => handled algorithm_name ranks e
        | Val _ => []
        end
      else [Print (Line ("Error running " ++ algorithm_name ++ " with "
                           ++ str ranks ++ " ranks:"));
            Print (Line stderr)]
  end.

(** The outcomes of the [n] launches of [cmd] that follow [k] earlier
    launches. *)
Definition outcomes (h : host) (cmd : list string) (k n : nat) : list proc_outcome :=
  map (fun i => subprocess_run h (k + i)%nat cmd) (seq 0 n).

Definition verdicts (h : host) (cmd : list string) (k n : nat) : list verdict :=
  map (verdict_of h) (outcomes h cmd k n).

Definition is_abort (v : verdict) : bool :=
  match v with Aborts => true | _ => false end.

(** The trials appended, in order. *)
Fixpoint yields (vs : list verdict) : list trial :=
  match vs with
  | [] => []
  | Yields t :: vs' => t :: yields vs'
  | _ :: vs' => yields vs'
  end.

(** The number of passes made: all, or up to the first that aborts. *)
Fixpoint passes (vs : list verdict) : nat :=
  match vs with
  | [] => 0
  | Aborts :: _ => 1
  | _ :: vs' => S (passes vs')
  end.

(** What the passes print: only an aborting pass prints, and it is the
    last. *)
Fixpoint reports (h : host) (algorithm_name : string) (ranks : Z)
         (os : list proc_outcome) : list event :=
  match os with
  | [] => []
  | o :: os' =>
      report h algorithm_name ranks o ++
      (if is_abort (verdict_of h o) then []
       else reports h algorithm_name ranks os')
  end.

(** The world after one pass. *)
Definition after_pass (h : host) (algorithm_name : string) (ranks : Z)
           (cmd : list string) (w : world) : world :=
  {| launches := launches w ++ [cmd];
     output := output w
               ++ report h algorithm_name ranks
                    (subprocess_run h (List.length (launches w)) cmd) |}.

(** The world after the passes over the launches [k], [k+1], ... *)
Definition after_passes (h : host) (algorithm_name : string) (ranks : Z)
           (cmd : list string) (n : nat) (w : world) : world :=
  let os := outcomes h cmd (List.length (launches w)) n in
  {| launches := launches w ++ repeat cmd (passes (map (verdict_of h) os));
     output := output w ++ reports h algorithm_name ranks os |}.

(** Events that are tables or files, as opposed to log lines. *)
Definition is_artifact (e : event) : bool :=
  match e with
  | Print (Table _) | ToCsv _ _ | SaveFig _ _ => true
  | Print (SpeedupLine _ _ _) => true
  | Print _ => false
  end.

(** The executable named by a command line of [command]. *)
Definition executable_of (cmd : list string) : string := nth 3 cmd "".

Definition initial : world := {| launches := []; output := [] |}.

Definition no_nan (xs : list float) : Prop :=
  Forall (fun x => Float64.is_nan x = false) xs.

(** A numeral that a pattern matches and its conversion rejects. *)
Definition malformed (h : host) (stdout : string) : Prop :=
  (exists g, match_pattern stdout = Some g /\ py_int (int_max_str_digits h) g = None)
  \/ (exists g, time_pattern stdout = Some g /\ py_float g = None).

(** A field that its pattern does not find. *)
Definition missing_field (stdout : string) : Prop :=
  match_pattern stdout = None \/ time_pattern stdout = None.

(** From [acc] and [w] to [acc'] and [w']: rows were appended that satisfy
    [P], commands were launched that satisfy [Q], and lines were logged,
    none of them a table or a file. *)
Definition extends (P : cell -> Prop) (Q : list string -> Prop)
           (acc : list cell) (w : world) (acc' : list cell) (w' : world) : Prop :=
  (exists cs, acc' = acc ++ cs /\ Forall P cs)
  /\ (exists ls, launches w' = launches w ++ ls /\ Forall Q ls)
  /\ (exists evs, output w' = output w ++ evs
                  /\ Forall (fun e => is_artifact e = false) evs).

(** The baseline row of an algorithm: its first row at 1 rank. *)
Definition baseline (df : list cell) (algo : string) : option cell :=
  find (fun row => String.eqb (algorithm row) algo && (ranks row =? 1)) df.

(** Line 160 for a row, given the baseline row. *)
Definition speedup_line (base row : cell) : event :=
  Print (SpeedupLine (ranks row)
           (Float64.div (time base) (time row))
           (Float64.mul
              (Float64.div (Float64.div (time base) (time row))
                           (Float64.of_Z (ranks row)))
              Float64.hundred)).

(** What the analysis prints for one algorithm (lines 156 and 160). *)
Definition analysis_lines (df : list cell) (algo : string) : list event :=
  match baseline df algo with
  | Some base =>
      Print (Line (nl ++ algo ++ ":")) :: map (speedup_line base) (rows_of df algo)
  | None => []
  end.

(** ** The cells of a sweep *)

(** [l1] is [l2] with some items left out. *)
Inductive subseq {A : Type} : list A -> list A -> Prop :=
| subseq_nil : subseq [] []
| subseq_skip x l1 l2 : subseq l1 l2 -> subseq l1 (x :: l2)
| subseq_take x l1 l2 : subseq l1 l2 -> subseq (x :: l1) (x :: l2).

(** The cell of a row. *)
Definition cell_of (c : cell) : string * Z := (algorithm c, ranks c).

(** The cells the sweep attempts, in its order: for each algorithm whose
    executable exists, each rank count. *)
Definition cells (h : host) (cfg : config) (algorithms : list (string * string))
  : list (string * Z) :=
  flat_map (fun entry =>
              if path_exists h (snd entry)
              then map (fun rk => (fst entry, rk)) (RANK_CONFIGS cfg)
              else [])
           algorithms.

(** The events that write a file. *)
Definition is_file (e : event) : bool :=
  match e with
  | ToCsv _ _ | SaveFig _ _ => true
  | Print _ => false
  end.

End Harness.

(* ===================================================================== *)
(** * Hosts and configurations for concrete runs *)
(* ===================================================================== *)

Module Scenarios.

Import Text Harness.

(** What a well-behaved program prints. *)
Definition printed (matches time : string) : string :=
  ("Matches: " ++ matches ++ nl ++ "Time(s): " ++ time ++ nl)%string.

(** A host whose [k]-th child process does [nth k script otherwise]; every
    path exists. *)
Definition scripted (compensated : bool) (script : list proc_outcome)
           (otherwise : proc_outcome) : host :=
  {| subprocess_run := fun k _ => nth k script otherwise;
     path_exists := fun _ => true;
     int_max_str_digits := 4300;
     compensated_sum := compensated |}.

(** A host whose child processes all succeed and print [stdout]. *)
Definition steady (compensated : bool) (stdout : string) : host :=
  scripted compensated [] (Completed 0 stdout "").

(** A host on which no executable exists but ["/opt/bf_mpi"]. *)
Definition only_bf : host :=
  {| subprocess_run := fun _ _ => Completed 0 (printed "42" "1.250000") "";
     path_exists := fun p => String.eqb p "/opt/bf_mpi";
     int_max_str_digits := 4300;
     compensated_sum := false |}.

(** A host on which no executable exists. *)
Definition bare : host :=
  {| subprocess_run := fun _ _ => Raises (OtherError "FileNotFoundError");
     path_exists := fun _ => false;
     int_max_str_digits := 4300;
     compensated_sum := false |}.

Definition small_config : config :=
  {| PAT_FILE := "pattern.txt";
     TEXT_FILE := "text.txt";
     ALGORITHMS := [("BF", "/opt/bf_mpi"); ("BM", "/opt/bm_mpi")];
     RANK_CONFIGS := [1; 2] |}.

Definition bf_cell (rk : Z) (t : float) : cell :=
  {| algorithm := "BF"; ranks := rk; matches := 42;
     time := t; min_time := t; max_time := t |}.

(** 0.1, 1.25 and 2.5 as binary64 numbers. *)
Definition tenth : float := S754_finite false 7205759403792794 (-56).
Definition five_quarters : float := S754_finite false 5629499534213120 (-52).
Definition five_halves : float := S754_finite false 5629499534213120 (-51).

End Scenarios.

(* ===================================================================== *)
(** * Facts about binary64 numbers *)
(* ===================================================================== *)

Module Float64Facts.

Import Float64.

Lemma iter_pos_invariant {A} (P : A -> Prop) (f : A -> A) :
  (forall x, P x -> P (f x)) ->
  forall p x, P x -> P (iter_pos f p x).
Proof.
  intros Hf p; induction p as [p IH | p IH | ]; intros x Hx; simpl; auto.
Qed.

Lemma shr_1_nonneg mrs : 0 <= shr_m mrs -> 0 <= shr_m (shr_1 mrs).
Proof.
  destruct mrs as [m r s]; simpl.
  destruct m as [ | [p | p | ] | p ]; simpl; intros H; try lia.
Qed.

Lemma shr_nonneg mrs e n : 0 <= shr_m mrs -> 0 <= shr_m (fst (shr mrs e n)).
Proof.
  intros H; destruct n as [ | p | p ]; simpl; auto.
  apply (iter_pos_invariant (fun r => 0 <= shr_m r)); auto using shr_1_nonneg.
Qed.

Lemma shr_fexp_nonneg m e l :
  0 <= m -> 0 <= shr_m (fst (shr_fexp prec emax m e l)).
Proof.
  intros H; unfold shr_fexp; apply shr_nonneg.
  destruct l as [ | [ | | ] ]; simpl; assumption.
Qed.

Lemma round_nearest_even_nonneg m l : 0 <= m -> 0 <= round_nearest_even m l.
Proof.
  intros H; destruct l as [ | [ | | ] ]; simpl; try lia.
  destruct (Z.even m); lia.
Qed.

Lemma binary_round_aux_not_nan m e l :
  0 <= m -> is_nan (binary_round_aux prec emax false m e l) = false.
Proof.
  intros H; unfold binary_round_aux.
  pose proof (shr_fexp_nonneg m e l H) as H1.
  destruct (shr_fexp prec emax m e l) as [mrs' e']; simpl in H1.
  pose proof (shr_fexp_nonneg _ e' loc_Exact
                (round_nearest_even_nonneg _ (loc_of_shr_record mrs') H1)) as H2.
  destruct (shr_fexp prec emax _ e' loc_Exact) as [mrs'' e'']; simpl in H2.
  destruct (shr_m mrs'') as [ | p | p ]; try reflexivity; try lia.
  destruct (e'' <=? emax - prec); reflexivity.
Qed.

Lemma of_ratio_not_nan n d : 0 <= n -> 0 < d -> is_nan (of_ratio n d) = false.
Proof.
  intros Hn Hd; unfold of_ratio.
  destruct n as [ | p | p ]; try reflexivity; try lia.
  unfold SFdiv_core_binary.
  set (s := _ - _ - _).
  set (m' := match s with Z0 => _ | Zpos _ => _ | Zneg _ => _ end).
  assert (Hm : 0 <= m').
  { subst m'; destruct s; try lia. apply Z.shiftl_nonneg; lia. }
  pose proof (Z_div_mod m' d ltac:(lia)) as Hdiv.
  destruct (Z.div_eucl m' d) as [q r].
  apply binary_round_aux_not_nan. nia.
Qed.

(** A finite number divided by itself is exactly one. *)
Lemma div_self s m e : div (S754_finite s m e) (S754_finite s m e) = one.
Proof.
  unfold div, SFdiv, SFdiv_core_binary.
  replace (Zdigits2 (Z.pos m) + e - (Zdigits2 (Z.pos m) + e)) with 0 by lia.
  replace (e - e) with 0 by lia.
  change (Z.min (fexp prec emax 0) 0) with (-53).
  change (0 - -53) with 53.
  cbv iota.
  rewrite Z.shiftl_mul_pow2 by lia.
  assert (Hq : Z.div_eucl (Z.pos m * 2 ^ 53) (Z.pos m) = (2 ^ 53, 0)).
  { pose proof (Z.div_mul (2 ^ 53) (Z.pos m) ltac:(lia)) as Hd.
    pose proof (Z.mod_mul (2 ^ 53) (Z.pos m) ltac:(lia)) as Hm.
    rewrite (Z.mul_comm (2 ^ 53)) in Hd, Hm.
    unfold Z.div in Hd; unfold Z.modulo in Hm.
    destruct (Z.div_eucl (Z.pos m * 2 ^ 53) (Z.pos m)) as [q r].
    simpl in Hd, Hm; subst; reflexivity. }
  rewrite Hq.
  assert (Hl : new_location (Z.pos m) 0 = loc_Exact).
  { unfold new_location, new_location_even, new_location_odd.
    destruct (Z.even (Z.pos m)); reflexivity. }
  rewrite Hl.
  destruct s; vm_compute; reflexivity.
Qed.

(** *** The order of the numbers that are not NaN *)

Ltac order_cases :=
  repeat match goal with
    | |- context [PosDef.Pos.compare_cont Eq ?a ?b] =>
        change (PosDef.Pos.compare_cont Eq a b) with (Pos.compare a b)
    | H : context [PosDef.Pos.compare_cont Eq ?a ?b] |- _ =>
        change (PosDef.Pos.compare_cont Eq a b) with (Pos.compare a b) in H
    end;
  repeat match goal with
    | |- context [Z.compare ?a ?b] =>
        let H := fresh "C" in destruct (Z.compare_spec a b) as [H | H | H]
    | H : context [Z.compare ?a ?b] |- _ =>
        let H' := fresh "C" in destruct (Z.compare_spec a b) as [H' | H' | H']
    | |- context [Pos.compare ?a ?b] =>
        let H := fresh "C" in destruct (Pos.compare_spec a b) as [H | H | H]
    | H : context [Pos.compare ?a ?b] |- _ =>
        let H' := fresh "C" in destruct (Pos.compare_spec a b) as [H' | H' | H']
    end;
  try reflexivity; try discriminate; try lia.

Lemma compare_swap x y :
  SFcompare y x = option_map CompOpp (SFcompare x y).
Proof.
  destruct x as [sx | sx | | sx mx ex], y as [sy | sy | | sy my ey];
    try destruct sx; try destruct sy; simpl; try reflexivity;
    order_cases.
Qed.

Lemma leb_refl x : is_nan x = false -> leb x x = true.
Proof.
  unfold leb, SFleb.
  destruct x as [sx | sx | | sx mx ex]; try destruct sx; simpl;
    try reflexivity; try discriminate; intros _;
    order_cases.
Qed.

Lemma ltb_leb x y : ltb x y = true -> leb x y = true.
Proof.
  unfold ltb, leb, SFltb, SFleb.
  destruct (SFcompare x y) as [[ | | ] | ]; auto.
Qed.

(** The order is total away from NaN. *)
Lemma ltb_false_leb x y :
  is_nan x = false -> is_nan y = false ->
  ltb x y = false -> leb y x = true.
Proof.
  unfold ltb, leb, SFltb, SFleb; intros Hx Hy.
  rewrite (compare_swap x y).
  destruct (SFcompare x y) as [[ | | ] | ] eqn:E; simpl; auto; try discriminate.
  destruct x, y; simpl in *; discriminate.
Qed.

Lemma leb_trans x y z : leb x y = true -> leb y z = true -> leb x z = true.
Proof.
  unfold leb, SFleb.
  destruct x as [sx | sx | | sx mx ex], y as [sy | sy | | sy my ey],
           z as [sz | sz | | sz mz ez];
    try destruct sx; try destruct sy; try destruct sz; simpl;
    try reflexivity; try discriminate;
    intros H1 H2; order_cases.
Qed.

End Float64Facts.

(* ===================================================================== *)
(** * Facts about the conversions *)
(* ===================================================================== *)

Module TextFacts.

Import Text.

Example match_pattern_finds_the_count :
  match_pattern "Matches: none; total Matches:   17 found" = Some "17".
Proof. reflexivity. Qed.

Example time_pattern_takes_digits_and_points :
  time_pattern "Time(s): 1.2.3s" = Some "1.2.3".
Proof. reflexivity. Qed.

Example py_float_values :
  py_float "1.250000" = Some (S754_finite false 5629499534213120 (-52))
  /\ py_float "1." = Some Float64.one
  /\ py_float ".5" = Some (S754_finite false 4503599627370496 (-53))
  /\ py_float "." = None
  /\ py_float "1.2.3" = None
  /\ py_float "0.000000" = Some Float64.zero.
Proof. repeat split; reflexivity. Qed.

Lemma take_while_all f s : all_chars f (take_while f s) = true.
Proof.
  induction s as [ | c s IH]; simpl; auto.
  destruct (f c) eqn:E; simpl; auto. rewrite E; auto.
Qed.

Lemma all_chars_app f s1 s2 :
  all_chars f s1 = true -> all_chars f s2 = true ->
  all_chars f (s1 ++ s2)%string = true.
Proof.
  induction s1 as [ | c s1 IH]; simpl; auto.
  intros H1 H2; apply andb_true_iff in H1 as [Hc H1].
  rewrite Hc; simpl; auto.
Qed.

Lemma decimal_value_nonneg s :
  all_chars is_digit s = true -> forall acc, 0 <= acc -> 0 <= decimal_value acc s.
Proof.
  induction s as [ | c s IH]; cbn [decimal_value all_chars]; intros H acc Hacc; auto.
  apply andb_true_iff in H as [Hc H].
  apply IH; auto.
  unfold is_digit in Hc. apply andb_true_iff in Hc as [Hlo Hhi].
  apply Z.leb_le in Hlo. lia.
Qed.

(** [float] of a string of digits and points is never NaN. *)
Lemma py_float_not_nan s x : py_float s = Some x -> Float64.is_nan x = false.
Proof.
  unfold py_float.
  pose proof (take_while_all is_digit s) as Hint.
  destruct (drop_while is_digit s) as [ | c frac].
  - destruct (take_while is_digit s) eqn:E; try discriminate.
    intros [= <-]. apply Float64Facts.of_ratio_not_nan; [ | reflexivity].
    exact (decimal_value_nonneg _ Hint 0 (Z.le_refl 0)).
  - destruct ((code c =? 46) && all_chars is_digit frac) eqn:E; try discriminate.
    apply andb_true_iff in E as [_ Hfrac].
    pose proof (all_chars_app _ _ _ Hint Hfrac) as Hall.
    destruct (take_while is_digit s ++ frac)%string eqn:E'; try discriminate.
    intros [= <-]. apply Float64Facts.of_ratio_not_nan.
    + exact (decimal_value_nonneg _ Hall 0 (Z.le_refl 0)).
    + apply Z.pow_pos_nonneg; [reflexivity | apply Nat2Z.is_nonneg].
Qed.

(** The group of a match is not empty and lies in the class. *)
Lemma match_here_group label cls s g :
  match_here label cls s = Some g -> g <> EmptyString /\ all_chars cls g = true.
Proof.
  unfold match_here.
  destruct (strip_prefix label s) as [rest | ]; try discriminate.
  pose proof (take_while_all cls (drop_while is_space rest)) as H.
  destruct (take_while cls (drop_while is_space rest)); try discriminate.
  intros [= <-]; split; auto; discriminate.
Qed.

Lemma search_group label cls s g :
  search label cls s = Some g -> g <> EmptyString /\ all_chars cls g = true.
Proof.
  induction s as [ | c s IH]; simpl.
  - destruct (match_here label cls "") eqn:E; try discriminate.
    intros [= <-]; eapply match_here_group; eauto.
  - destruct (match_here label cls (String c s)) eqn:E; auto.
    intros [= <-]; eapply match_here_group; eauto.
Qed.

End TextFacts.

(* ===================================================================== *)
(** * Facts about the harness *)
(* ===================================================================== *)

Module HarnessFacts.

Import Text Harness.

(** ** min and max *)

Section Extremes.

Import Float64 Float64Facts.

Local Arguments no_nan /.

Lemma smallest_spec :
  forall x0 rest, no_nan (x0 :: rest) ->
  let xs := x0 :: rest in
  let m := fold_left (fun best item => if ltb item best then item else best) rest x0 in
  In m xs /\ forall x, In x xs -> leb m x = true.
Proof.
  unfold no_nan; intros x0 rest; revert x0.
  induction rest as [ | item rest IH]; intros x0 Hnan; simpl.
  - inversion Hnan; subst. split; [now left | ].
    intros x [<- | []]; now apply leb_refl.
  - inversion Hnan as [ | ? ? H0 Hrest]; subst.
    inversion Hrest as [ | ? ? Hitem Hrest']; subst.
    set (x1 := if ltb item x0 then item else x0).
    assert (Hx1 : is_nan x1 = false) by (subst x1; destruct (ltb item x0); auto).
    assert (H10 : leb x1 x0 = true).
    { subst x1; destruct (ltb item x0) eqn:E; [now apply ltb_leb | now apply leb_refl]. }
    assert (H1i : leb x1 item = true).
    { subst x1; destruct (ltb item x0) eqn:E;
        [now apply leb_refl | now apply ltb_false_leb]. }
    assert (Hin1 : x1 = x0 \/ x1 = item) by (subst x1; destruct (ltb item x0); auto).
    destruct (IH x1 (Forall_cons _ Hx1 Hrest')) as [Hin Hle].
    split.
    + destruct Hin as [Heq | Hin]; [ | now right; right].
      rewrite <- Heq. destruct Hin1 as [-> | ->]; [now left | now right; left].
    + intros x [<- | [<- | Hx]].
      * eapply leb_trans; [apply Hle; now left | exact H10].
      * eapply leb_trans; [apply Hle; now left | exact H1i].
      * apply Hle; now right.
Qed.

Lemma greatest_spec :
  forall x0 rest, no_nan (x0 :: rest) ->
  let xs := x0 :: rest in
  let m := fold_left (fun best item => if gtb item best then item else best) rest x0 in
  In m xs /\ forall x, In x xs -> leb x m = true.
Proof.
  unfold no_nan; intros x0 rest; revert x0.
  induction rest as [ | item rest IH]; intros x0 Hnan; simpl.
  - inversion Hnan; subst. split; [now left | ].
    intros x [<- | []]; now apply leb_refl.
  - inversion Hnan as [ | ? ? H0 Hrest]; subst.
    inversion Hrest as [ | ? ? Hitem Hrest']; subst.
    set (x1 := if gtb item x0 then item else x0).
    assert (Hx1 : is_nan x1 = false) by (subst x1; destruct (gtb item x0); auto).
    assert (H10 : leb x0 x1 = true).
    { subst x1; unfold gtb; destruct (SFltb x0 item) eqn:E;
        [apply ltb_leb; exact E | now apply leb_refl]. }
    assert (H1i : leb item x1 = true).
    { subst x1; unfold gtb; destruct (SFltb x0 item) eqn:E;
        [now apply leb_refl | apply ltb_false_leb; auto; exact E]. }
    assert (Hin1 : x1 = x0 \/ x1 = item) by (subst x1; destruct (gtb item x0); auto).
    destruct (IH x1 (Forall_cons _ Hx1 Hrest')) as [Hin Hle].
    split.
    + destruct Hin as [Heq | Hin]; [ | now right; right].
      rewrite <- Heq. destruct Hin1 as [-> | ->]; [now left | now right; left].
    + intros x [<- | [<- | Hx]].
      * eapply leb_trans; [exact H10 | apply Hle; now left].
      * eapply leb_trans; [exact H1i | apply Hle; now left].
      * apply Hle; now right.
Qed.

(** [min] returns an item that is below every item. *)
Lemma py_min_spec xs m :
  no_nan xs ->
  py_min xs = Val m -> In m xs /\ forall x, In x xs -> leb m x = true.
Proof.
  destruct xs as [ | x0 rest]; simpl; [discriminate | ].
  intros Hnan [= <-]. now apply smallest_spec.
Qed.

(** [max] returns an item that is above every item. *)
Lemma py_max_spec xs m :
  no_nan xs ->
  py_max xs = Val m -> In m xs /\ forall x, In x xs -> leb x m = true.
Proof.
  destruct xs as [ | x0 rest]; simpl; [discriminate | ].
  intros Hnan [= <-]. now apply greatest_spec.
Qed.

End Extremes.

(** ** The passes of the loop *)

Lemma world_eta w : {| launches := launches w; output := output w |} = w.
Proof. destruct w; reflexivity. Qed.

Section Passes.

(** The passes of one cell: a host, and the arguments that do not change
    from pass to pass. *)
Variables (h : host) (algorithm_name : string) (rk : Z) (cmd : list string).

(** One pass: a launch, the report of its outcome, and its verdict. *)
Lemma attempt_spec results w :
  attempt h algorithm_name rk cmd results w =
  (Val match verdict_of h (subprocess_run h (List.length (launches w)) cmd) with
       | Aborts => ReturnNone
       | Skipped => Next results
       | Yields t => Next (results ++ [t])
       end,
   after_pass h algorithm_name rk cmd w).
Proof.
  unfold attempt, after_pass, try_except, bind, run, verdict_of, report.
  destruct (subprocess_run h (List.length (launches w)) cmd)
    as [returncode stdout stderr | e]; simpl.
  - destruct (returncode =? 0); simpl.
    + unfold of_result.
      destruct (parse h stdout) as [[[m | ] [t | ]] | e]; simpl;
        rewrite ?app_nil_r; try reflexivity.
      destruct e; reflexivity.
    + rewrite <- app_assoc; reflexivity.
  - destruct e; reflexivity.
Qed.

Lemma outcomes_S k n :
  outcomes h cmd k (S n) = subprocess_run h k cmd :: outcomes h cmd (S k) n.
Proof.
  unfold outcomes. rewrite <- cons_seq, <- seq_shift. cbn [map].
  rewrite map_map, Nat.add_0_r. f_equal.
  apply map_ext; intros i. now rewrite Nat.add_succ_r.
Qed.

Lemma verdicts_S k n :
  verdicts h cmd k (S n) =
  verdict_of h (subprocess_run h k cmd) :: verdicts h cmd (S k) n.
Proof. unfold verdicts; now rewrite outcomes_S. Qed.

Lemma outcomes_length k n : List.length (outcomes h cmd k n) = n.
Proof. unfold outcomes; now rewrite length_map, length_seq. Qed.

Lemma verdicts_length k n : List.length (verdicts h cmd k n) = n.
Proof. unfold verdicts; now rewrite length_map, outcomes_length. Qed.

(** The loop: it returns early at the first pass that aborts, and
    otherwise ends with the trials yielded, in order. *)
Lemma attempts_spec n :
  forall results w,
    attempts h algorithm_name rk cmd n results w =
    (Val (let vs := verdicts h cmd (List.length (launches w)) n in
          if existsb is_abort vs then None else Some (results ++ yields vs)),
     after_passes h algorithm_name rk cmd n w).
Proof.
  induction n as [ | n IH]; intros results w.
  - unfold after_passes; simpl. rewrite !app_nil_r, world_eta. reflexivity.
  - cbn [attempts]. unfold bind. rewrite attempt_spec.
    unfold after_passes. rewrite verdicts_S, outcomes_S.
    cbn [map passes reports existsb yields].
    destruct (verdict_of h (subprocess_run h (List.length (launches w)) cmd)) eqn:V.
    + unfold ret, after_pass; simpl. rewrite app_nil_r. reflexivity.
    + rewrite IH. unfold after_passes, after_pass; cbn [launches output is_abort orb].
      rewrite length_app, Nat.add_1_r. cbn [List.length].
      rewrite <- !app_assoc. reflexivity.
    + rewrite IH. unfold after_passes, after_pass; cbn [launches output is_abort orb].
      rewrite length_app, Nat.add_1_r. cbn [List.length].
      rewrite <- !app_assoc. reflexivity.
Qed.

End Passes.

(** ** run_experiment *)

Lemma summary_cons h algorithm_name ranks t ts :
  exists c, summary h algorithm_name ranks (t :: ts) = Val c.
Proof.
  unfold summary, truediv.
  replace (Z.of_nat (List.length (t :: ts)) =? 0) with false
    by (symmetry; apply Z.eqb_neq; simpl; lia).
  simpl. eexists; reflexivity.
Qed.

Lemma summary_fields h algorithm_name ranks results c :
  summary h algorithm_name ranks results = Val c ->
  algorithm c = algorithm_name /\ Harness.ranks c = ranks /\
  time c = Float64.div (py_sum h (map t_time results))
                       (Float64.of_Z (Z.of_nat (List.length results))) /\
  (exists r0 rest, results = r0 :: rest /\ matches c = t_matches r0) /\
  py_min (map t_time results) = Val (min_time c) /\
  py_max (map t_time results) = Val (max_time c).
Proof.
  unfold summary, truediv.
  destruct results as [ | r0 rest]; [simpl; discriminate | ].
  replace (Z.of_nat (List.length (r0 :: rest)) =? 0) with false
    by (symmetry; apply Z.eqb_neq; simpl; lia).
  simpl. intros [= <-]; simpl. repeat split; eauto.
Qed.

(** [run_experiment] in terms of the verdicts of its passes. *)
Lemma run_experiment_spec h algorithm_name executable ranks pattern_file text_file
      repeat w :
  let cmd := command executable ranks pattern_file text_file in
  let vs := verdicts h cmd (List.length (launches w)) repeat in
  run_experiment h algorithm_name executable ranks pattern_file text_file repeat w =
  (match (if existsb is_abort vs then None else Some (yields vs)) with
   | None | Some [] => Val None
   | Some results =>
       and_then (summary h algorithm_name ranks results) (fun c => Val (Some c))
   end,
   after_passes h algorithm_name ranks cmd repeat w).
Proof.
  intros cmd vs. unfold run_experiment, bind. fold cmd.
  rewrite attempts_spec. fold vs. cbn zeta. rewrite app_nil_l.
  destruct (existsb is_abort vs); [reflexivity | ].
  destruct (yields vs) as [ | t ts]; [reflexivity | ].
  unfold of_result, ret.
  destruct (summary h algorithm_name ranks (t :: ts)); reflexivity.
Qed.

(** [run_experiment] never raises. *)
Lemma run_experiment_returns h algorithm_name executable ranks pattern_file text_file
      repeat w :
  exists r, fst (run_experiment h algorithm_name executable ranks
                   pattern_file text_file repeat w) = Val r.
Proof.
  rewrite run_experiment_spec; cbn [fst].
  destruct (existsb is_abort _); [eexists; reflexivity | ].
  destruct (yields _) as [ | t ts]; [eexists; reflexivity | ].
  destruct (summary_cons h algorithm_name ranks t ts) as [c ->].
  eexists; reflexivity.
Qed.

(** ** The sweep *)

Lemma extends_refl P Q acc w : extends P Q acc w acc w.
Proof.
  repeat split; exists []; rewrite app_nil_r; auto.
Qed.

Lemma extends_trans P Q acc w acc1 w1 acc2 w2 :
  extends P Q acc w acc1 w1 -> extends P Q acc1 w1 acc2 w2 ->
  extends P Q acc w acc2 w2.
Proof.
  intros [[cs [-> Hcs]] [[ls [Hl Hls]] [evs [He Hevs]]]]
         [[cs' [-> Hcs']] [[ls' [Hl' Hls']] [evs' [He' Hevs']]]].
  repeat split.
  - exists (cs ++ cs'); rewrite app_assoc; split; auto using Forall_app.
    apply Forall_app; auto.
  - exists (ls ++ ls'); rewrite Hl', Hl, app_assoc; split; auto.
    apply Forall_app; auto.
  - exists (evs ++ evs'); rewrite He', He, app_assoc; split; auto.
    apply Forall_app; auto.
Qed.

Lemma extends_weaken (P P' : cell -> Prop) (Q Q' : list string -> Prop)
      acc w acc' w' :
  (forall c, P c -> P' c) -> (forall cmd, Q cmd -> Q' cmd) ->
  extends P Q acc w acc' w' -> extends P' Q' acc w acc' w'.
Proof.
  intros HP HQ [[cs [-> Hcs]] [[ls [Hl Hls]] [evs [He Hevs]]]].
  repeat split.
  - exists cs; split; auto. eapply Forall_impl; eauto.
  - exists ls; split; auto. eapply Forall_impl; eauto.
  - exists evs; split; auto.
Qed.

Lemma extends_print P Q acc w m :
  is_artifact (Print m) = false ->
  extends P Q acc w acc (snd (print m w)).
Proof.
  intros H; repeat split; simpl.
  - exists []; rewrite app_nil_r; auto.
  - exists []; rewrite app_nil_r; auto.
  - exists [Print m]; auto.
Qed.

Lemma extends_append (P : cell -> Prop) Q acc w c :
  P c -> extends P Q acc w (acc ++ [c]) w.
Proof.
  intros H; repeat split.
  - exists [c]; auto.
  - exists []; rewrite app_nil_r; auto.
  - exists []; rewrite app_nil_r; auto.
Qed.

Lemma handled_log algorithm_name ranks e :
  Forall (fun ev => is_artifact ev = false) (handled algorithm_name ranks e).
Proof. destruct e; repeat constructor. Qed.

Lemma report_log h algorithm_name ranks o :
  Forall (fun ev => is_artifact ev = false) (report h algorithm_name ranks o).
Proof.
  destruct o as [returncode stdout stderr | e]; simpl; [ | apply handled_log].
  destruct (returncode =? 0); [ | repeat constructor].
  destruct (parse h stdout); [constructor | apply handled_log].
Qed.

Lemma reports_log h algorithm_name ranks os :
  Forall (fun ev => is_artifact ev = false) (reports h algorithm_name ranks os).
Proof.
  induction os as [ | o os IH]; simpl; [constructor | ].
  apply Forall_app; split; [apply report_log | ].
  destruct (is_abort (verdict_of h o)); [constructor | exact IH].
Qed.

Lemma extends_passes P (Q : list string -> Prop) acc h algorithm_name ranks cmd n w :
  Q cmd -> extends P Q acc w acc (after_passes h algorithm_name ranks cmd n w).
Proof.
  intros H; repeat split; simpl.
  - exists []; rewrite app_nil_r; auto.
  - eexists; split; [reflexivity | ].
    apply Forall_forall; intros x Hx. apply repeat_spec in Hx; now subst.
  - eexists; split; [reflexivity | apply reports_log].
Qed.

(** One round of the loop over the ranks. *)
Lemma for_ranks_cons h cfg algo_name executable ranks rest all_results w :
  for_ranks h cfg algo_name executable (ranks :: rest) all_results w =
  let w1 := snd (print (Running ranks) w) in
  let run := run_experiment h algo_name executable ranks
               (PAT_FILE cfg) (TEXT_FILE cfg) 3 w1 in
  match fst run with
  | Val (Some r) =>
      for_ranks h cfg algo_name executable rest (all_results ++ [r])
        (snd (print (Succeeded (time r) (matches r)) (snd run)))
  | Val None =>
      for_ranks h cfg algo_name executable rest all_results
        (snd (print Failed (snd run)))
  | Exc e => (Exc e, snd run)
  end.
Proof.
  cbn [for_ranks]. unfold bind at 1. cbn [print fst snd]. unfold bind at 1.
  destruct (run_experiment _ _ _ _ _ _ _ _) as [[[r | ] | e] w2]; reflexivity.
Qed.

(** The loop over the ranks returns, and adds rows of its algorithm and
    launches of its executable only. *)
Lemma for_ranks_spec h cfg algo_name executable rank_configs :
  forall all_results w,
  exists all_results' w',
    for_ranks h cfg algo_name executable rank_configs all_results w
    = (Val all_results', w')
    /\ extends (fun c => algorithm c = algo_name /\ In (ranks c) rank_configs)
               (fun cmd => executable_of cmd = executable)
               all_results w all_results' w'.
Proof.
  induction rank_configs as [ | rk rest IH]; intros all_results w.
  - exists all_results, w; split; [reflexivity | apply extends_refl].
  - rewrite for_ranks_cons. cbn zeta.
    set (w1 := snd (print (Running rk) w)).
    pose proof (run_experiment_spec h algo_name executable rk
                  (PAT_FILE cfg) (TEXT_FILE cfg) 3 w1) as Hrun.
    cbn zeta in Hrun. rewrite Hrun; cbn [fst snd]. clear Hrun.
    set (cmd := command executable rk (PAT_FILE cfg) (TEXT_FILE cfg)).
    set (w2 := after_passes h algo_name rk cmd 3 w1).
    assert (H12 : forall P acc,
               extends P (fun cmd => executable_of cmd = executable) acc w acc w2).
    { intros P acc. eapply extends_trans.
      - apply (extends_print _ _ _ w (Running rk)); reflexivity.
      - apply extends_passes; reflexivity. }
    assert (Hnone : exists all_results' w',
               for_ranks h cfg algo_name executable rest all_results
                 (snd (print Failed w2)) = (Val all_results', w')
               /\ extends (fun c => algorithm c = algo_name /\ In (ranks c) (rk :: rest))
                          (fun cmd => executable_of cmd = executable)
                          all_results w all_results' w').
    { destruct (IH all_results (snd (print Failed w2))) as (acc' & w' & E & X).
      exists acc', w'; split; [exact E | ].
      eapply extends_trans; [apply H12 | ].
      eapply extends_trans; [apply (extends_print _ _ _ w2 Failed); reflexivity | ].
      eapply extends_weaken; [ | | exact X]; cbn beta;
        [intros ? [? ?]; split; [assumption | now right] | auto]. }
    destruct (existsb is_abort _); [exact Hnone | ].
    destruct (yields _) as [ | t ts]; [exact Hnone | ].
    destruct (summary h algo_name rk (t :: ts)) as [c | e] eqn:S.
    + cbn [and_then].
      destruct (summary_fields _ _ _ _ _ S) as (Ha & Hr & _).
      destruct (IH (all_results ++ [c])
                   (snd (print (Succeeded (time c) (matches c)) w2)))
        as (acc' & w' & E & X).
      exists acc', w'; split; [exact E | ].
      eapply extends_trans; [apply H12 | ].
      eapply extends_trans;
        [apply (extends_print _ _ _ w2 (Succeeded (time c) (matches c))); reflexivity | ].
      eapply extends_trans.
      * apply (extends_append _ _ all_results _ c). split; [exact Ha | left; now rewrite Hr].
      * eapply extends_weaken; [ | | exact X]; cbn beta;
        [intros ? [? ?]; split; [assumption | now right] | auto].
    + destruct (summary_cons h algo_name rk t ts) as [c S']. congruence.
Qed.

(** One round of the loop over the algorithms. *)
Lemma for_algorithms_cons h cfg algo_name executable rest all_results w :
  for_algorithms h cfg ((algo_name, executable) :: rest) all_results w =
  let w1 := snd (print (Line (nl ++ "Testing " ++ algo_name ++ "...")) w) in
  if path_exists h executable then
    match for_ranks h cfg algo_name executable (RANK_CONFIGS cfg) all_results w1 with
    | (Val all_results', w2) => for_algorithms h cfg rest all_results' w2
    | (Exc e, w2) => (Exc e, w2)
    end
  else
    for_algorithms h cfg rest all_results
      (snd (print (Line ("  Warning: " ++ executable ++ " not found. Skipping.")) w1)).
Proof.
  cbn [for_algorithms]. unfold bind at 1. cbn [print fst snd].
  destruct (path_exists h executable); cbn [negb]; reflexivity.
Qed.

(** The sweep returns; its rows belong to algorithms whose executable
    exists, and so do its launches. *)
Lemma for_algorithms_spec h cfg algorithms :
  forall all_results w,
  exists all_results' w',
    for_algorithms h cfg algorithms all_results w = (Val all_results', w')
    /\ extends (fun c => exists executable,
                    In (algorithm c, executable) algorithms
                    /\ path_exists h executable = true)
               (fun cmd => path_exists h (executable_of cmd) = true
                           /\ exists algo_name,
                               In (algo_name, executable_of cmd) algorithms)
               all_results w all_results' w'.
Proof.
  induction algorithms as [ | [algo_name executable] rest IH]; intros all_results w.
  - exists all_results, w; split; [reflexivity | apply extends_refl].
  - rewrite for_algorithms_cons. cbn zeta.
    set (w1 := snd (print _ w)).
    assert (H01 : forall P Q acc, extends P Q acc w acc w1)
      by (intros; apply extends_print; reflexivity).
    destruct (path_exists h executable) eqn:Ex.
    + destruct (for_ranks_spec h cfg algo_name executable (RANK_CONFIGS cfg)
                  all_results w1) as (acc1 & w2 & E1 & X1).
      rewrite E1.
      destruct (IH acc1 w2) as (acc' & w' & E & X).
      exists acc', w'; split; [exact E | ].
      eapply extends_trans; [apply H01 | ].
      eapply extends_trans.
      * eapply extends_weaken; [ | | exact X1]; cbn beta.
        -- intros c [Hc _]. exists executable; split; [left; now rewrite Hc | exact Ex].
        -- intros cmd Hc. rewrite Hc. split; [exact Ex | exists algo_name; now left].
      * eapply extends_weaken; [ | | exact X]; cbn beta.
        -- intros c (e & Hin & He). exists e; split; [now right | exact He].
        -- intros cmd (Hp & n & Hin). split; [exact Hp | exists n; now right].
    + set (w2 := snd (print _ w1)).
      destruct (IH all_results w2) as (acc' & w' & E & X).
      exists acc', w'; split; [exact E | ].
      eapply extends_trans; [apply H01 | ].
      eapply extends_trans;
        [ | eapply extends_weaken; [ | | exact X]; cbn beta ].
      * apply extends_print; reflexivity.
      * intros c (e & Hin & He). exists e; split; [now right | exact He].
      * intros cmd (Hp & n & Hin). split; [exact Hp | exists n; now right].
Qed.

(** ** The speedup analysis *)

Lemma for_rows_spec base rows :
  forall w,
    for_rows (time base) rows w =
    (Val tt, {| launches := launches w;
                output := output w ++ map (speedup_line base) rows |}).
Proof.
  induction rows as [ | row rows IH]; intros w.
  - simpl. unfold ret. now rewrite app_nil_r, world_eta.
  - cbn [for_rows map]. unfold bind, print. rewrite IH. cbn [launches output].
    now rewrite <- app_assoc.
Qed.

(** The base time the code picks is the time of the baseline row. *)
Lemma base_times_baseline df algo :
  hd_error (base_times (rows_of df algo)) = option_map time (baseline df algo).
Proof.
  unfold base_times, rows_of, baseline.
  induction df as [ | row df IH]; [reflexivity | ].
  cbn [filter find].
  destruct (String.eqb (algorithm row) algo); cbn [andb filter]; [ | exact IH].
  destruct (ranks row =? 1); [reflexivity | exact IH].
Qed.

Lemma analyse_spec df algo w :
  analyse df algo w =
  (Val tt,
   match baseline df algo with
   | Some base =>
       {| launches := launches w;
          output := output w
                    ++ Print (Line (nl ++ algo ++ ":"))
                       :: map (speedup_line base) (rows_of df algo) |}
   | None => w
   end).
Proof.
  unfold analyse.
  pose proof (base_times_baseline df algo) as H.
  destruct (base_times (rows_of df algo)) as [ | base_time rest];
    destruct (baseline df algo) as [base | ]; try discriminate; [reflexivity | ].
  injection H as ->.
  unfold bind, print. rewrite for_rows_spec. cbn [launches output].
  now rewrite <- app_assoc.
Qed.

(** ** The parse *)

Lemma parse_raises h stdout e :
  parse h stdout = Exc e <-> malformed h stdout /\ e = ValueError.
Proof.
  unfold parse, malformed, converted, and_then.
  destruct (match_pattern stdout) as [g | ];
    [destruct (py_int (int_max_str_digits h) g) as [v | ] eqn:Ei | ];
    (destruct (time_pattern stdout) as [g' | ];
     [destruct (py_float g') as [v' | ] eqn:Ef | ]);
    split;
    try (intros [= <-]; split; [ | reflexivity]; eauto);
    try discriminate;
    try (intros [_ ->]; reflexivity);
    intros [[(x & [= <-] & Hx) | (x & [= <-] & Hx)] _]; congruence.
Qed.

Lemma parse_value h stdout matches exec_time :
  parse h stdout = Val (matches, exec_time) ->
  (matches = None <-> match_pattern stdout = None)
  /\ (exec_time = None <-> time_pattern stdout = None)
  /\ (forall t, exec_time = Some t ->
                exists g, time_pattern stdout = Some g /\ py_float g = Some t).
Proof.
  unfold parse, converted, and_then.
  destruct (match_pattern stdout) as [g | ];
    [destruct (py_int (int_max_str_digits h) g) as [v | ] | ];
    (destruct (time_pattern stdout) as [g' | ];
     [destruct (py_float g') as [v' | ] eqn:Ef | ]);
    try discriminate; intros [= <- <-];
    repeat split; try discriminate; try reflexivity;
    intros t [= <-]; eauto.
Qed.

(** A trial that is appended has a time that is a number. *)
Lemma yields_not_nan h o t :
  verdict_of h o = Yields t -> Float64.is_nan (t_time t) = false.
Proof.
  unfold verdict_of.
  destruct o as [returncode stdout stderr | e]; [ | discriminate].
  destruct (returncode =? 0); [ | discriminate].
  destruct (parse h stdout) as [[[m | ] [x | ]] | e] eqn:P; try discriminate.
  intros [= <-]; cbn [t_time].
  destruct (parse_value _ _ _ _ P) as (_ & _ & H).
  destruct (H x eq_refl) as (g & _ & Hg).
  eapply TextFacts.py_float_not_nan; eauto.
Qed.

Lemma yields_in vs t : In t (yields vs) <-> In (Yields t) vs.
Proof.
  induction vs as [ | v vs IH]; [simpl; tauto | ].
  destruct v as [ | | t']; cbn [yields In]; rewrite IH; split;
    try (intros [H | H]; [discriminate | auto]); auto.
  - intros [-> | H]; auto.
  - intros [[= ->] | H]; auto.
Qed.

Lemma verdicts_no_nan h cmd k n :
  no_nan (map t_time (yields (verdicts h cmd k n))).
Proof.
  apply Forall_forall; intros x Hx.
  apply in_map_iff in Hx as (t & <- & Ht).
  apply yields_in in Ht. unfold verdicts in Ht.
  apply in_map_iff in Ht as (o & Ho & _).
  eapply yields_not_nan; eauto.
Qed.

Lemma existsb_is_abort vs :
  existsb is_abort vs = false <-> forall v, In v vs -> v <> Aborts.
Proof.
  induction vs as [ | v vs IH]; simpl; [split; auto; intros _ ? [] | ].
  rewrite orb_false_iff, IH. split.
  - intros [Hv H] v' [<- | Hin]; [destruct v; discriminate | auto].
  - intros H; split; [ | intros; apply H; auto].
    destruct v; auto. exfalso; apply (H Aborts); auto.
Qed.

(** The passes made when the pass [k] is the first to abort. *)
Lemma passes_first_abort vs k :
  nth_error vs k = Some Aborts ->
  (forall i, (i < k)%nat -> nth_error vs i <> Some Aborts) ->
  passes vs = S k /\ existsb is_abort vs = true.
Proof.
  revert k; induction vs as [ | v vs IH]; intros k Hk Hlt.
  - destruct k; discriminate.
  - destruct k as [ | k].
    + injection Hk as ->. split; reflexivity.
    + assert (Hv : v <> Aborts) by (intros ->; apply (Hlt 0%nat); [lia | reflexivity]).
      destruct (IH k Hk) as [Hp He].
      { intros i Hi. apply (Hlt (S i)). lia. }
      destruct v; try congruence; cbn [passes existsb is_abort orb];
        rewrite Hp, He; split; reflexivity.
Qed.

Lemma passes_no_abort vs :
  existsb is_abort vs = false -> passes vs = List.length vs.
Proof.
  induction vs as [ | v vs IH]; [reflexivity | ].
  destruct v; cbn [existsb is_abort orb passes List.length];
    try discriminate; intros H; now rewrite IH.
Qed.

End HarnessFacts.

(* ===================================================================== *)
(** * Concrete runs *)
(* ===================================================================== *)

Module Runs.

Import Text Harness Scenarios.

(** Three identical trials of 1.25 s at 1 rank. *)
Example three_identical_trials :
  run_experiment (steady false (printed "42" "1.250000"))
                 "BF" "/opt/bf_mpi" 1 "pattern.txt" "text.txt" 3 initial
  = (Val (Some (bf_cell 1 five_quarters)),
     {| launches := List.repeat (command "/opt/bf_mpi" 1 "pattern.txt" "text.txt") 3;
        output := [] |}).
Proof. vm_compute; reflexivity. Qed.

(** Trials of 1.0, 1.2 and 0.8 s at 2 ranks: mean 1.0, least 0.8, greatest
    1.2; against a baseline of 1.25 s the speedup is 1.25 and the
    efficiency 62.5. *)
Example three_different_trials :
  let h := scripted false
             [Completed 0 (printed "42" "1.0") "";
              Completed 0 (printed "42" "1.2") "";
              Completed 0 (printed "42" "0.8") ""]
             (Raises TimeoutExpired) in
  let c := {| algorithm := "BF"; ranks := 2; matches := 42;
              time := Float64.one;
              min_time := S754_finite false 7205759403792794 (-53);
              max_time := S754_finite false 5404319552844595 (-52) |} in
  fst (run_experiment h "BF" "/opt/bf_mpi" 2 "pattern.txt" "text.txt" 3 initial)
  = Val (Some c)
  /\ py_float "0.8" = Some (min_time c)
  /\ py_float "1.2" = Some (max_time c)
  /\ speedup_line (bf_cell 1 five_quarters) c
     = Print (SpeedupLine 2 five_quarters
                (S754_finite false 8796093022208000 (-47)))
  /\ py_float "62.5" = Some (S754_finite false 8796093022208000 (-47)).
Proof. cbv zeta. repeat split; vm_compute; reflexivity. Qed.

(** A timeout in the first trial: one launch, one line, no result. *)
Example timeout_in_first_trial :
  run_experiment (scripted false [] (Raises TimeoutExpired))
                 "RK" "/opt/rk_mpi" 32 "pattern.txt" "text.txt" 3 initial
  = (Val None,
     {| launches := [command "/opt/rk_mpi" 32 "pattern.txt" "text.txt"];
        output := [Print (Line "Timeout for RK with 32 ranks")] |}).
Proof. vm_compute; reflexivity. Qed.

(** A failure in the second trial, after a success: two launches, no
    result. *)
Example failure_after_success :
  run_experiment (scripted false [Completed 0 (printed "42" "1.0") ""]
                                 (Completed 1 "" "segmentation fault"))
                 "BF" "/opt/bf_mpi" 4 "pattern.txt" "text.txt" 3 initial
  = (Val None,
     {| launches := List.repeat (command "/opt/bf_mpi" 4 "pattern.txt" "text.txt") 2;
        output := [Print (Line "Error running BF with 4 ranks:");
                   Print (Line "segmentation fault")] |}).
Proof. vm_compute; reflexivity. Qed.

(** A registry whose second executable is missing. *)
Example missing_executable :
  for_algorithms only_bf small_config (ALGORITHMS small_config) [] initial
  = (Val [bf_cell 1 five_quarters; bf_cell 2 five_quarters],
     {| launches :=
          List.repeat (command "/opt/bf_mpi" 1 "pattern.txt" "text.txt") 3
          ++ List.repeat (command "/opt/bf_mpi" 2 "pattern.txt" "text.txt") 3;
        output :=
          [Print (Line (nl ++ "Testing BF..."));
           Print (Running 1); Print (Succeeded five_quarters 42);
           Print (Running 2); Print (Succeeded five_quarters 42);
           Print (Line (nl ++ "Testing BM..."));
           Print (Line "  Warning: /opt/bm_mpi not found. Skipping.")] |}).
Proof. vm_compute; reflexivity. Qed.

(** The registry of the script on a host without its executables: three
    warnings, no launch, and the line that no results were collected. *)
Example nothing_installed :
  let w := snd (main bare source_config initial) in
  fst (main bare source_config initial) = Val tt
  /\ launches w = []
  /\ List.length (output w) = 15%nat
  /\ last (output w) (Print Failed) = Print (Line (nl ++ "No results collected!")).
Proof. cbv zeta. repeat split; vm_compute; reflexivity. Qed.

End Runs.

(* ===================================================================== *)
(** * Properties of run_experiment *)
(* ===================================================================== *)

Import Text Harness HarnessFacts.

(** What makes a pass abort: the child process raised (a timeout, a failure
    to launch), it exited with a non-zero status, or a numeral it printed
    is rejected by its conversion. *)
Lemma verdict_aborts h o :
  verdict_of h o = Aborts <->
  (exists e, o = Raises e)
  \/ (exists returncode stdout stderr,
         o = Completed returncode stdout stderr
         /\ (returncode <> 0 \/ malformed h stdout)).
Proof.
  unfold verdict_of. destruct o as [returncode stdout stderr | e].
  - destruct (Z.eqb_spec returncode 0) as [-> | Hrc].
    + destruct (parse h stdout) as [[m t] | e] eqn:P.
      * split.
        -- destruct m, t; discriminate.
        -- intros [[e [=]] | (rc & out & err & [= <- <- <-] & [Hrc | Hm])];
             [congruence | ].
           pose proof (proj2 (parse_raises h stdout ValueError) (conj Hm eq_refl)).
           congruence.
      * split; [ | reflexivity].
        intros _; right; exists 0, stdout, stderr; split; [reflexivity | right].
        eapply parse_raises; eauto.
    + split; [ | reflexivity].
      intros _; right; exists returncode, stdout, stderr; auto.
  - split; [eauto | reflexivity].
Qed.

(** What makes a pass yield a trial: the child process exited with status
    0 and both fields were found and converted. *)
Lemma verdict_yields h o t :
  verdict_of h o = Yields t <->
  exists stdout stderr,
    o = Completed 0 stdout stderr
    /\ parse h stdout = Val (Some (t_matches t), Some (t_time t)).
Proof.
  unfold verdict_of. destruct o as [returncode stdout stderr | e].
  - destruct (Z.eqb_spec returncode 0) as [-> | Hrc].
    + destruct (parse h stdout) as [[[m | ] [x | ]] | e] eqn:P; split;
        try discriminate;
        try (intros (out & err & [= <- <-] & H); congruence).
      * intros [= <-]. exists stdout, stderr. split; [reflexivity | exact P].
      * intros (out & err & [= <- <-] & H). rewrite P in H.
        destruct t; simpl in H. congruence.
    + split; [discriminate | ]. intros (out & err & [= -> _ _] & _). congruence.
  - split; [discriminate | ]. intros (out & err & [=] & _).
Qed.

(** What makes a pass skip its trial: the child process exited with status
    0, no numeral was rejected, and a field is missing. *)
Lemma verdict_skipped h o :
  verdict_of h o = Skipped <->
  exists stdout stderr,
    o = Completed 0 stdout stderr
    /\ ~ malformed h stdout /\ missing_field stdout.
Proof.
  unfold verdict_of, missing_field. destruct o as [returncode stdout stderr | e].
  - destruct (Z.eqb_spec returncode 0) as [-> | Hrc].
    + destruct (parse h stdout) as [[m x] | e] eqn:P.
      * assert (Hwell : ~ malformed h stdout).
        { intros Hm.
          pose proof (proj2 (parse_raises h stdout ValueError) (conj Hm eq_refl)).
          congruence. }
        destruct (parse_value _ _ _ _ P) as (Hm & Hx & _).
        split.
        -- intros Hs. exists stdout, stderr. split; [reflexivity | split; [exact Hwell | ]].
           destruct m as [m | ]; [ | left; now apply Hm].
           destruct x as [x | ]; [discriminate | right; now apply Hx].
        -- intros (out & err & [= <- <-] & _ & [Hmiss | Hmiss]).
           ++ apply Hm in Hmiss; subst m. reflexivity.
           ++ apply Hx in Hmiss; subst x. destruct m; reflexivity.
      * split; [discriminate | ].
        intros (out & err & [= <- <-] & Hwell & _).
        apply parse_raises in P as [Hbad _]. contradiction.
    + split; [discriminate | ]. intros (out & err & [= -> _ _] & _). congruence.
  - split; [discriminate | ]. intros (out & err & [=] & _).
Qed.

(** A pass that does not abort prints nothing. *)
Lemma report_silent h algorithm_name rk o :
  verdict_of h o <> Aborts -> report h algorithm_name rk o = [].
Proof.
  unfold verdict_of, report.
  destruct o as [returncode stdout stderr | e]; [ | congruence].
  destruct (returncode =? 0); [ | congruence].
  destruct (parse h stdout); congruence.
Qed.

Lemma reports_silent h algorithm_name rk os :
  existsb is_abort (map (verdict_of h) os) = false ->
  reports h algorithm_name rk os = [].
Proof.
  induction os as [ | o os IH]; [reflexivity | ].
  cbn [map existsb reports]. intros H; apply orb_false_iff in H as [Ho H].
  rewrite Ho, report_silent, IH; auto.
  destruct (verdict_of h o); [discriminate | congruence | congruence].
Qed.


(** What the summary of trials whose times are numbers holds. *)
Lemma summary_statistics h algorithm_name rk ts c :
  no_nan (map t_time ts) ->
  summary h algorithm_name rk ts = Val c ->
  algorithm c = algorithm_name /\ ranks c = rk
  /\ time c = Float64.div (py_sum h (map t_time ts))
                          (Float64.of_Z (Z.of_nat (List.length ts)))
  /\ (In (min_time c) (map t_time ts)
      /\ forall x, In x (map t_time ts) -> Float64.leb (min_time c) x = true)
  /\ (In (max_time c) (map t_time ts)
      /\ forall x, In x (map t_time ts) -> Float64.leb x (max_time c) = true)
  /\ (exists t0 rest, ts = t0 :: rest /\ matches c = t_matches t0).
Proof.
  intros Hnan S.
  destruct (summary_fields _ _ _ _ _ S) as (Ha & Hr & Ht & Hm & Hlo & Hhi).
  repeat split; auto.
  - eapply py_min_spec; eauto.
  - eapply py_min_spec; eauto.
  - eapply py_max_spec; eauto.
  - eapply py_max_spec; eauto.
Qed.

(** C1 (amended).  The cell is abandoned at the first pass that aborts (the
    child process timed out, could not be launched or exited with a
    non-zero status, or a numeral it printed was rejected): no later pass
    is made and [run_experiment] returns [None].  A pass whose output only
    lacks a field does not abort: when no pass aborts, all are made, and
    [run_experiment] returns a result exactly when some pass yielded a
    trial.  The sweep appends a row for the cell exactly when
    [run_experiment] returned one. *)
Theorem fail_fast_per_cell (h : host) (cfg : config) (algo_name executable : string)
        (rk : Z) (trial_count : nat) (all_results : list cell) (w : world) :
  let cmd := command executable rk (PAT_FILE cfg) (TEXT_FILE cfg) in
  let vs := verdicts h cmd (List.length (launches w)) trial_count in
  let run := run_experiment h algo_name executable rk
               (PAT_FILE cfg) (TEXT_FILE cfg) trial_count w in
  (forall k,
      nth_error vs k = Some Aborts ->
      (forall i, (i < k)%nat -> nth_error vs i <> Some Aborts) ->
      fst run = Val None
      /\ launches (snd run) = launches w ++ List.repeat cmd (S k))
  /\ ((forall v, In v vs -> v <> Aborts) ->
      launches (snd run) = launches w ++ List.repeat cmd trial_count
      /\ (yields vs = [] -> fst run = Val None)
      /\ (yields vs <> [] -> exists c, fst run = Val (Some c)))
  /\ fst (for_ranks h cfg algo_name executable [rk] all_results w)
     = Val match fst (run_experiment h algo_name executable rk
                        (PAT_FILE cfg) (TEXT_FILE cfg) 3
                        (snd (print (Running rk) w))) with
           | Val (Some c) => all_results ++ [c]
           | _ => all_results
           end.
Proof.
  intros cmd vs run. split; [ | split].
  - intros k Hk Hfirst.
    destruct (passes_first_abort vs k Hk Hfirst) as [Hp He].
    subst run. rewrite run_experiment_spec. fold cmd vs. rewrite He.
    split; [reflexivity | ].
    cbn [snd after_passes launches].
    fold (verdicts h cmd (List.length (launches w)) trial_count). fold vs.
    now rewrite Hp.
  - intros Hno. pose proof (proj2 (existsb_is_abort vs) Hno) as He.
    subst run. rewrite run_experiment_spec. fold cmd vs. rewrite He.
    split; [ | split].
    + cbn [snd after_passes launches].
      fold (verdicts h cmd (List.length (launches w)) trial_count). fold vs.
      rewrite (passes_no_abort vs He). unfold vs. now rewrite verdicts_length.
    + intros ->. reflexivity.
    + intros Hy. destruct (yields vs) as [ | t ts]; [congruence | ].
      destruct (summary_cons h algo_name rk t ts) as [c ->].
      exists c; reflexivity.
  - rewrite for_ranks_cons. cbn zeta.
    destruct (run_experiment_returns h algo_name executable rk
                (PAT_FILE cfg) (TEXT_FILE cfg) 3 (snd (print (Running rk) w)))
      as [[c | ] ->]; reflexivity.
Qed.

(** C1, as stated, fails: the first of three trials prints no result line,
    which is a parse failure, and the cell is neither abandoned nor absent:
    the three launches are made and the row is appended. *)
Lemma first_trial_parse_failure_tolerated :
  let h := Scenarios.scripted false [Completed 0 "no result line" ""]
             (Completed 0 (Scenarios.printed "42" "1.250000") "") in
  let cell := Scenarios.bf_cell 1 Scenarios.five_quarters in
  missing_field "no result line"
  /\ run_experiment h "BF" "/opt/bf_mpi" 1 "pattern.txt" "text.txt" 3 initial
     = (Val (Some cell),
        {| launches := List.repeat
                         (command "/opt/bf_mpi" 1 "pattern.txt" "text.txt") 3;
           output := [] |})
  /\ fst (for_ranks h Scenarios.small_config "BF" "/opt/bf_mpi" [1] [] initial)
     = Val [cell].
Proof.
  cbv zeta. split; [left; reflexivity | split; vm_compute; reflexivity].
Qed.





(** C4 (amended).  In every result of [run_experiment], [min_time] is at
    most [max_time], and the time of every trial counted lies between
    them.  (The mean is the binary64 quotient of the binary64 sum; rounding
    can carry it outside that interval, and the statement leaves it out.) *)
Theorem min_time_le_max_time (h : host) (algorithm_name executable : string)
        (rk : Z) (pattern_file text_file : string) (trial_count : nat)
        (w w' : world) (c : cell) :
  run_experiment h algorithm_name executable rk pattern_file text_file
                 trial_count w = (Val (Some c), w') ->
  Float64.leb (min_time c) (max_time c) = true
  /\ forall t,
      In t (yields (verdicts h (command executable rk pattern_file text_file)
                             (List.length (launches w)) trial_count)) ->
      Float64.leb (min_time c) (t_time t) = true
      /\ Float64.leb (t_time t) (max_time c) = true.
Proof.
  rewrite run_experiment_spec. cbv zeta.
  pose proof (verdicts_no_nan h (command executable rk pattern_file text_file)
                (List.length (launches w)) trial_count) as Hnan.
  destruct (existsb is_abort _); [discriminate | ].
  destruct (yields _) as [ | t0 ts] eqn:Y; [discriminate | ].
  destruct (summary h algorithm_name rk (t0 :: ts)) as [c' | e] eqn:S;
    [ | discriminate].
  intros [= -> _].
  destruct (summary_statistics _ _ _ _ _ Hnan S)
    as (_ & _ & _ & [Hlo_in Hlo] & [Hhi_in Hhi] & _).
  split.
  - apply Hhi, Hlo_in.
  - intros t Ht. split; [apply Hlo | apply Hhi]; now apply in_map.
Qed.

(** Trials of 2.5, 1.25 and 1.25 s. *)
Lemma min_time_le_max_time_witness :
  exists c,
    fst (run_experiment
           (Scenarios.scripted false
              [Completed 0 (Scenarios.printed "42" "2.5") ""]
              (Completed 0 (Scenarios.printed "42" "1.250000") ""))
           "BF" "/opt/bf_mpi" 1 "pattern.txt" "text.txt" 3 initial)
    = Val (Some c)
    /\ min_time c = Scenarios.five_quarters
    /\ max_time c = Scenarios.five_halves
    /\ Float64.leb (min_time c) (max_time c) = true.
Proof.
  eexists. split; [vm_compute; reflexivity | ].
  split; [reflexivity | split; [reflexivity | ]].
  refine (proj1 (min_time_le_max_time
                   (Scenarios.scripted false
                      [Completed 0 (Scenarios.printed "42" "2.5") ""]
                      (Completed 0 (Scenarios.printed "42" "1.250000") ""))
                   "BF" "/opt/bf_mpi" 1 "pattern.txt" "text.txt" 3 initial _ _ _)).
  vm_compute; reflexivity.
Defined.

(** C4, as stated, fails: three trials that each report 0.1 s give the mean
    0.10000000000000002, which is above the maximum 0.1: the sum
    0.1 + 0.1 + 0.1 rounds up to 0.30000000000000004, and so does its
    third.  Plain and compensated summation agree here. *)
Lemma mean_above_max_time :
  let mean := S754_finite false 7205759403792795 (-56) in
  let cell := {| algorithm := "BF"; ranks := 1; matches := 42;
                 time := mean;
                 min_time := Scenarios.tenth;
                 max_time := Scenarios.tenth |} in
  Text.py_float "0.1" = Some Scenarios.tenth
  /\ fst (run_experiment (Scenarios.steady false (Scenarios.printed "42" "0.1"))
            "BF" "/opt/bf_mpi" 1 "pattern.txt" "text.txt" 3 initial)
     = Val (Some cell)
  /\ fst (run_experiment (Scenarios.steady true (Scenarios.printed "42" "0.1"))
            "BF" "/opt/bf_mpi" 1 "pattern.txt" "text.txt" 3 initial)
     = Val (Some cell)
  /\ Float64.leb (time cell) (max_time cell) = false
  /\ Float64.ltb (max_time cell) (time cell) = true.
Proof.
  cbv zeta. repeat split; vm_compute; reflexivity.
Qed.

(** C8 (amended).  For a child process that exits with status 0 and
    prints [stdout]: when a numeral matched by a pattern is rejected by its
    conversion, the [ValueError] is caught and logged and the pass returns
    [None], which abandons the cell; when a pattern finds nothing (and no
    numeral is rejected), the pass appends nothing, prints nothing, and the
    loop goes on; a trial is appended only when both fields are found and
    well formed.  In no case does the pass raise. *)
Theorem parse_failure_handling (h : host) (algorithm_name : string) (rk : Z)
        (cmd : list string) (results : list trial) (w : world)
        (stdout stderr : string) :
  subprocess_run h (List.length (launches w)) cmd = Completed 0 stdout stderr ->
  (malformed h stdout ->
   attempt h algorithm_name rk cmd results w
   = (Val ReturnNone,
      {| launches := launches w ++ [cmd];
         output := output w ++ [Print (ExceptionRunning algorithm_name ValueError)] |}))
  /\ (~ malformed h stdout -> missing_field stdout ->
      attempt h algorithm_name rk cmd results w
      = (Val (Next results),
         {| launches := launches w ++ [cmd]; output := output w |}))
  /\ (forall results' w',
         attempt h algorithm_name rk cmd results w = (Val (Next results'), w') ->
         results' <> results ->
         ~ missing_field stdout /\ ~ malformed h stdout)
  /\ (exists f, fst (attempt h algorithm_name rk cmd results w) = Val f).
Proof.
  intros Hrun. rewrite attempt_spec. unfold after_pass. rewrite Hrun.
  cbn [verdict_of report Z.eqb].
  destruct (parse h stdout) as [[m t] | e] eqn:P.
  - assert (Hwell : ~ malformed h stdout).
    { intros Hm.
      pose proof (proj2 (parse_raises h stdout ValueError) (conj Hm eq_refl)).
      congruence. }
    destruct (parse_value _ _ _ _ P) as (Hm & Ht & _).
    rewrite app_nil_r.
    split; [intros Hbad; contradiction | ].
    split; [ | split; [ | eexists; reflexivity]].
    + intros _ [Hmiss | Hmiss].
      * apply Hm in Hmiss; subst m. reflexivity.
      * apply Ht in Hmiss; subst t. destruct m; reflexivity.
    + intros results' w' E Hne. split; [ | exact Hwell].
      intros [Hmiss | Hmiss].
      * apply Hm in Hmiss; subst m. injection E as <- _. congruence.
      * apply Ht in Hmiss; subst t. destruct m; injection E as <- _; congruence.
  - apply parse_raises in P as [Hbad ->].
    split; [intros _; reflexivity | ].
    split; [intros Hwell; contradiction | ].
    split; [discriminate | eexists; reflexivity].
Qed.

(** A time of 1.2.3: the pass logs the [ValueError] and returns. *)
Lemma parse_failure_handling_witness :
  attempt (Scenarios.steady false "Matches: 42 Time(s): 1.2.3")
          "BF" 1 (command "/opt/bf_mpi" 1 "pattern.txt" "text.txt") [] initial
  = (Val ReturnNone,
     {| launches := [command "/opt/bf_mpi" 1 "pattern.txt" "text.txt"];
        output := [Print (ExceptionRunning "BF" ValueError)] |}).
Proof.
  refine (proj1 (parse_failure_handling
                   (Scenarios.steady false "Matches: 42 Time(s): 1.2.3")
                   "BF" 1 (command "/opt/bf_mpi" 1 "pattern.txt" "text.txt")
                   [] initial "Matches: 42 Time(s): 1.2.3" "" _) _).
  - reflexivity.
  - right. exists "1.2.3". split; reflexivity.
Defined.

(** C8, as stated, fails: a trial whose output lacks the time is not
    reported as a failure.  Here it is the first of three; the cell
    succeeds on the two others, and all that is printed is the progress
    line and the success line. *)
Lemma missing_field_not_reported :
  let h := Scenarios.scripted false [Completed 0 "Matches: 42" ""]
             (Completed 0 (Scenarios.printed "42" "1.250000") "") in
  Text.time_pattern "Matches: 42" = None
  /\ for_ranks h Scenarios.small_config "BF" "/opt/bf_mpi" [1] [] initial
     = (Val [Scenarios.bf_cell 1 Scenarios.five_quarters],
        {| launches := List.repeat
                         (command "/opt/bf_mpi" 1 "pattern.txt" "text.txt") 3;
           output := [Print (Running 1);
                      Print (Succeeded Scenarios.five_quarters 42)] |}).
Proof.
  cbv zeta. split; vm_compute; reflexivity.
Qed.

(* ===================================================================== *)
(** * Properties of main *)
(* ===================================================================== *)

Lemma analyse_lines df algo w :
  analyse df algo w =
  (Val tt, {| launches := launches w;
              output := output w ++ analysis_lines df algo |}).
Proof.
  rewrite analyse_spec. unfold analysis_lines.
  destruct (baseline df algo); [reflexivity | ].
  now rewrite app_nil_r, world_eta.
Qed.

Lemma speedup_analysis_spec df algos :
  forall w,
    speedup_analysis df algos w =
    (Val tt, {| launches := launches w;
                output := output w ++ flat_map (analysis_lines df) algos |}).
Proof.
  induction algos as [ | algo algos IH]; intros w.
  - simpl. unfold ret. now rewrite app_nil_r, world_eta.
  - cbn [speedup_analysis flat_map]. unfold bind.
    rewrite analyse_lines, IH. cbn [launches output].
    now rewrite <- app_assoc.
Qed.

Lemma unique_complete names :
  forall seen a, In a names -> In a seen \/ In a (unique seen names).
Proof.
  induction names as [ | n names IH]; intros seen a; [intros [] | ].
  cbn [unique]. intros [<- | Hin].
  - destruct (existsb (String.eqb n) seen) eqn:E.
    + left. apply existsb_exists in E as (x & Hx & Heq).
      apply String.eqb_eq in Heq; now subst.
    + right; now left.
  - destruct (existsb (String.eqb n) seen) eqn:E.
    + now apply IH.
    + destruct (IH (n :: seen) a Hin) as [[<- | H] | H]; auto.
      * right; now left.
      * right; now right.
Qed.

Lemma algorithms_of_complete df row :
  In row df -> In (algorithm row) (algorithms_of df).
Proof.
  intros H. unfold algorithms_of.
  destruct (unique_complete (map algorithm df) [] (algorithm row)) as [[] | Hin]; auto.
  now apply in_map.
Qed.

Lemma rows_of_complete df algo row :
  In row (rows_of df algo) <-> In row df /\ algorithm row = algo.
Proof.
  unfold rows_of. rewrite filter_In, String.eqb_eq. reflexivity.
Qed.

Lemma baseline_row df algo base :
  baseline df algo = Some base ->
  In base df /\ algorithm base = algo /\ ranks base = 1.
Proof.
  unfold baseline. intros H. apply find_some in H as [Hin Hb].
  apply andb_true_iff in Hb as [Ha Hr].
  apply String.eqb_eq in Ha. apply Z.eqb_eq in Hr. auto.
Qed.

Lemma baseline_none df algo :
  baseline df algo = None <->
  forall row, In row df -> algorithm row = algo -> ranks row <> 1.
Proof.
  unfold baseline. split.
  - intros H row Hin Ha Hr.
    pose proof (find_none _ _ H row Hin) as Hf. cbn beta in Hf.
    rewrite Ha, String.eqb_refl, Hr in Hf. discriminate.
  - intros H. destruct (find _ df) as [base | ] eqn:F; [ | reflexivity].
    apply find_some in F as [Hin Hb].
    apply andb_true_iff in Hb as [Ha Hr].
    apply String.eqb_eq in Ha. apply Z.eqb_eq in Hr.
    destruct (H base Hin Ha Hr).
Qed.

(** What [present] adds to the output. *)
Lemma present_spec cfg df w :
  present cfg df w =
  (Val tt,
   {| launches := launches w;
      output :=
        output w
        ++ [Print (Line (nl ++ rule)); Print (Line "RESULTS SUMMARY");
            Print (Line rule); Print (Table df);
            ToCsv "mpi_comparison_results.csv" df;
            Print (Line (nl ++ "Results saved to mpi_comparison_results.csv"));
            Print (Line (nl ++ rule));
            Print (Line "SPEEDUP ANALYSIS (relative to 1 rank)");
            Print (Line rule)]
        ++ flat_map (analysis_lines df) (algorithms_of df)
        ++ [Print (Line (nl ++ rule)); Print (Line "GENERATING PLOTS");
            Print (Line rule);
            SaveFig "mpi_comparison_plot.png" (plots cfg df);
            Print (Line "Plot saved to mpi_comparison_plot.png");
            Print (Line (nl ++ rule)); Print (Line "EXPERIMENT COMPLETE");
            Print (Line rule)] |}).
Proof.
  unfold present, bind, print, emit. cbn [launches output].
  rewrite speedup_analysis_spec. cbn [launches output].
  f_equal. f_equal. rewrite <- !app_assoc. reflexivity.
Qed.

(** The lines of an algorithm with a baseline row, and where they are
    printed. *)
Lemma speedup_lines_printed cfg df algo base w :
  baseline df algo = Some base ->
  analyse df algo w
  = (Val tt,
     {| launches := launches w;
        output := output w
                  ++ Print (Line (nl ++ algo ++ ":"))
                     :: map (speedup_line base) (rows_of df algo) |})
  /\ forall row,
      In row df -> algorithm row = algo ->
      In row (rows_of df algo)
      /\ In (speedup_line base row) (output (snd (analyse df algo w)))
      /\ In (speedup_line base row) (output (snd (present cfg df w))).
Proof.
  intros Hb.
  assert (Han : analyse df algo w
                = (Val tt,
                   {| launches := launches w;
                      output := output w
                                ++ Print (Line (nl ++ algo ++ ":"))
                                   :: map (speedup_line base) (rows_of df algo) |})).
  { rewrite analyse_lines. unfold analysis_lines. now rewrite Hb. }
  split; [exact Han | ].
  intros row Hin Ha.
  assert (Hrow : In row (rows_of df algo)) by now apply rows_of_complete.
  split; [exact Hrow | split].
  - rewrite Han. cbn [snd output]. apply in_or_app; right; right.
    now apply in_map.
  - rewrite present_spec. cbn [snd output].
    apply in_or_app; right. apply in_or_app; right. apply in_or_app; left.
    apply in_flat_map. exists algo. split.
    + rewrite <- Ha. now apply algorithms_of_complete.
    + unfold analysis_lines. rewrite Hb. right.
      change (In (speedup_line base row) (map (speedup_line base) (rows_of df algo))).
      now apply in_map.
Qed.

(** C3.  For an algorithm with a row at 1 rank, the analysis prints, after
    the name of the algorithm, one line per row of the algorithm (the
    baseline row included), in order: its speedup is the time of the
    baseline row divided by the time of the row, and its efficiency is that
    speedup divided by the ranks of the row, times 100.  These lines are
    part of what [main] prints for the table [df]. *)
Theorem derived_metrics_formulas (cfg : config) (df : list cell) (algo : string)
        (base : cell) (w : world) :
  baseline df algo = Some base ->
  analyse df algo w
  = (Val tt,
     {| launches := launches w;
        output :=
          output w
          ++ Print (Line (nl ++ algo ++ ":"))
             :: map (fun row =>
                       Print (SpeedupLine (ranks row)
                                (Float64.div (time base) (time row))
                                (Float64.mul
                                   (Float64.div
                                      (Float64.div (time base) (time row))
                                      (Float64.of_Z (ranks row)))
                                   Float64.hundred)))
                    (rows_of df algo) |})
  /\ forall row,
      In row df -> algorithm row = algo ->
      In row (rows_of df algo)
      /\ In (Print (SpeedupLine (ranks row)
                      (Float64.div (time base) (time row))
                      (Float64.mul
                         (Float64.div (Float64.div (time base) (time row))
                                      (Float64.of_Z (ranks row)))
                         Float64.hundred)))
            (output (snd (present cfg df w))).
Proof.
  intros Hb.
  destruct (speedup_lines_printed cfg df algo base w Hb) as [Han Hrows].
  split; [exact Han | ].
  intros row Hin Ha. destruct (Hrows row Hin Ha) as (Hrow & _ & Hpr).
  split; [exact Hrow | exact Hpr].
Qed.

(** A baseline of 1.25 s and a row of 1.0 s at 2 ranks: speedup 1.25,
    efficiency 62.5. *)
Lemma derived_metrics_formulas_witness :
  In (Print (SpeedupLine 2 Scenarios.five_quarters
               (S754_finite false 8796093022208000 (-47))))
     (output (snd (present Scenarios.small_config
                     [Scenarios.bf_cell 1 Scenarios.five_quarters;
                      Scenarios.bf_cell 2 Float64.one] initial))).
Proof.
  refine (proj2 (proj2 (derived_metrics_formulas Scenarios.small_config
                   [Scenarios.bf_cell 1 Scenarios.five_quarters;
                    Scenarios.bf_cell 2 Float64.one]
                   "BF" (Scenarios.bf_cell 1 Scenarios.five_quarters) initial _)
                   (Scenarios.bf_cell 2 Float64.one) _ _)).
  - reflexivity.
  - right; left; reflexivity.
  - reflexivity.
Defined.

(** C5 (amended).  For an algorithm whose baseline row has a time that is
    finite and not zero, the line printed for the baseline row itself has
    speedup exactly 1.0 and efficiency exactly 100.0. *)
Theorem baseline_identity (cfg : config) (df : list cell) (algo : string)
        (base : cell) (w : world) :
  baseline df algo = Some base ->
  Float64.is_finite (time base) = true ->
  Float64.is_zero (time base) = false ->
  Float64.div (time base) (time base) = Float64.one
  /\ Float64.mul (Float64.div (Float64.div (time base) (time base))
                              (Float64.of_Z (ranks base)))
                 Float64.hundred = Float64.hundred
  /\ speedup_line base base = Print (SpeedupLine 1 Float64.one Float64.hundred)
  /\ In (Print (SpeedupLine 1 Float64.one Float64.hundred))
        (output (snd (analyse df algo w)))
  /\ In (Print (SpeedupLine 1 Float64.one Float64.hundred))
        (output (snd (present cfg df w))).
Proof.
  intros Hb Hfin Hnz.
  destruct (baseline_row _ _ _ Hb) as (Hin & Ha & Hr).
  assert (Hone : Float64.div (time base) (time base) = Float64.one).
  { destruct (time base) as [s | s | | s m e]; try discriminate.
    apply Float64Facts.div_self. }
  assert (Hhundred :
            Float64.mul (Float64.div (Float64.div (time base) (time base))
                                     (Float64.of_Z (ranks base)))
                        Float64.hundred = Float64.hundred).
  { rewrite Hone, Hr. vm_compute; reflexivity. }
  assert (Hline : speedup_line base base
                  = Print (SpeedupLine 1 Float64.one Float64.hundred)).
  { unfold speedup_line. rewrite Hhundred, Hone, Hr. reflexivity. }
  destruct (speedup_lines_printed cfg df algo base w Hb) as [_ Hrows].
  destruct (Hrows base Hin Ha) as (_ & Han & Hpr).
  rewrite Hline in Han, Hpr. auto.
Qed.

(** A baseline of 1.25 s, listed after the row at 2 ranks. *)
Lemma baseline_identity_witness :
  In (Print (SpeedupLine 1 Float64.one Float64.hundred))
     (output (snd (present Scenarios.small_config
                     [Scenarios.bf_cell 2 Float64.one;
                      Scenarios.bf_cell 1 Scenarios.five_quarters] initial))).
Proof.
  refine (proj2 (proj2 (proj2 (proj2
            (baseline_identity Scenarios.small_config
               [Scenarios.bf_cell 2 Float64.one;
                Scenarios.bf_cell 1 Scenarios.five_quarters]
               "BF" (Scenarios.bf_cell 1 Scenarios.five_quarters) initial
               _ _ _))))); reflexivity.
Defined.

(** C5, as stated, fails: a program fast enough to report 0.000000 s in
    each trial gives a baseline time of zero, and the line of the baseline
    row then carries 0.0 / 0.0, which is not a number, for the speedup and
    for the efficiency. *)
Lemma zero_baseline_not_identity :
  let h := Scenarios.steady false (Scenarios.printed "42" "0.000000") in
  fst (run_experiment h "BF" "/opt/bf_mpi" 1 "pattern.txt" "text.txt" 3 initial)
  = Val (Some (Scenarios.bf_cell 1 Float64.zero))
  /\ In (Print (SpeedupLine 1 S754_nan S754_nan))
        (output (snd (main h Scenarios.small_config initial)))
  /\ ~ In (Print (SpeedupLine 1 Float64.one Float64.hundred))
          (output (snd (main h Scenarios.small_config initial))).
Proof.
  cbv zeta. split; [vm_compute; reflexivity | split].
  - vm_compute. repeat (first [left; reflexivity | right]).
  - vm_compute. intuition discriminate.
Qed.

(** C6.  For an algorithm without a row at 1 rank, the analysis prints
    nothing and returns, and no speedup curve is plotted for it. *)
Theorem missing_baseline_skipped (df : list cell) (algo : string) (w : world) :
  (forall row, In row df -> algorithm row = algo -> ranks row <> 1) ->
  analyse df algo w = (Val tt, w)
  /\ analysis_lines df algo = []
  /\ speedup_curve df algo = [].
Proof.
  intros H. apply baseline_none in H.
  rewrite analyse_spec. unfold analysis_lines. rewrite H.
  repeat split.
  unfold speedup_curve.
  pose proof (base_times_baseline df algo) as Hb. rewrite H in Hb.
  destruct (base_times (rows_of df algo)); [reflexivity | discriminate].
Qed.

(** Rows at 2, 4 and 8 ranks only. *)
Lemma missing_baseline_skipped_witness :
  analyse [Scenarios.bf_cell 2 Float64.one; Scenarios.bf_cell 4 Float64.one;
           Scenarios.bf_cell 8 Float64.one] "BF" initial
  = (Val tt, initial).
Proof.
  refine (proj1 (missing_baseline_skipped
                   [Scenarios.bf_cell 2 Float64.one; Scenarios.bf_cell 4 Float64.one;
                    Scenarios.bf_cell 8 Float64.one] "BF" initial _)).
  intros row [<- | [<- | [<- | []]]] _; discriminate.
Defined.




(** The header is eight lines of text. *)
Lemma header_spec cfg w :
  exists evs,
    header cfg w = (Val tt, {| launches := launches w; output := output w ++ evs |})
    /\ Forall (fun e => is_artifact e = false) evs.
Proof.
  eexists. split.
  - unfold header, bind, print. cbn [launches output].
    rewrite <- !app_assoc. cbn [app]. reflexivity.
  - repeat constructor.
Qed.

(** C9.  When the sweep collects no row, [main] prints that no results
    were collected and returns: it does not raise, and nothing it printed
    or saved is a table, a CSV file, an analysis line or a plot. *)
Theorem empty_sweep_soft_failure (h : host) (cfg : config) (w w1 : world) :
  for_algorithms h cfg (ALGORITHMS cfg) [] (snd (header cfg w)) = (Val [], w1) ->
  main h cfg w
  = (Val tt,
     {| launches := launches w1;
        output := output w1 ++ [Print (Line (nl ++ "No results collected!"))] |})
  /\ exists evs,
      output (snd (main h cfg w))
      = output w ++ evs ++ [Print (Line (nl ++ "No results collected!"))]
      /\ Forall (fun e => is_artifact e = false) evs.
Proof.
  intros Hsweep.
  destruct (header_spec cfg w) as (hs & Hh & Hhs).
  assert (Hmain : main h cfg w
                  = (Val tt,
                     {| launches := launches w1;
                        output := output w1
                                  ++ [Print (Line (nl ++ "No results collected!"))] |})).
  { unfold main. unfold bind at 1. rewrite Hh in Hsweep |- *.
    cbn [snd] in Hsweep. unfold bind at 1. rewrite Hsweep.
    reflexivity. }
  split; [exact Hmain | ].
  rewrite Hmain. cbn [snd output].
  rewrite Hh in Hsweep. cbn [snd] in Hsweep.
  destruct (for_algorithms_spec h cfg (ALGORITHMS cfg) []
              {| launches := launches w; output := output w ++ hs |})
    as (acc & w' & E & _ & _ & (evs & He & Hevs)).
  rewrite Hsweep in E. injection E as <- <-.
  cbn [output] in He.
  exists (hs ++ evs). split.
  - rewrite He, <- !app_assoc. reflexivity.
  - apply Forall_app; auto.
Qed.

(** Every child process times out. *)
Lemma empty_sweep_soft_failure_witness :
  exists w1,
    main (Scenarios.scripted false [] (Raises TimeoutExpired))
         Scenarios.small_config initial
    = (Val tt,
       {| launches := launches w1;
          output := output w1 ++ [Print (Line (nl ++ "No results collected!"))] |}).
Proof.
  eexists.
  refine (proj1 (empty_sweep_soft_failure
                   (Scenarios.scripted false [] (Raises TimeoutExpired))
                   Scenarios.small_config initial _ _)).
  vm_compute. reflexivity.
Defined.



(* ===================================================================== *)
(** * Further properties: the patterns *)
(* ===================================================================== *)

Module PatternFacts.

Import Text.

Lemma strip_prefix_app p s : strip_prefix p (p ++ s)%string = Some s.
Proof.
  induction p as [ | a p IH]; [destruct s; reflexivity | ].
  cbn [append strip_prefix]. now rewrite Ascii.eqb_refl.
Qed.

Lemma strip_prefix_some p : forall s r, strip_prefix p s = Some r -> s = (p ++ r)%string.
Proof.
  induction p as [ | a p IH]; intros s r.
  - destruct s; simpl; now intros [= ->].
  - destruct s as [ | b s]; [discriminate | ]. cbn [strip_prefix append].
    destruct (Ascii.eqb_spec a b) as [-> | ]; [ | discriminate].
    intros H. now rewrite (IH _ _ H).
Qed.

Lemma take_drop_while f s : s = (take_while f s ++ drop_while f s)%string.
Proof.
  induction s as [ | c s IH]; [reflexivity | ].
  cbn [take_while drop_while]. destruct (f c); [ | reflexivity].
  cbn [append]. now rewrite <- IH.
Qed.

Lemma drop_while_stops f s : stops f (drop_while f s).
Proof.
  induction s as [ | c s IH]; [exact I | ].
  cbn [drop_while]. destruct (f c) eqn:E; [exact IH | exact E].
Qed.

Lemma drop_while_app f ws s :
  all_chars f ws = true -> drop_while f (ws ++ s)%string = drop_while f s.
Proof.
  induction ws as [ | c ws IH]; [reflexivity | ].
  cbn [all_chars append drop_while]. intros H.
  apply andb_true_iff in H as [Hc H]. now rewrite Hc, IH.
Qed.

Lemma take_while_app f g s :
  all_chars f g = true -> take_while f (g ++ s)%string = (g ++ take_while f s)%string.
Proof.
  induction g as [ | c g IH]; [reflexivity | ].
  cbn [all_chars append take_while]. intros H.
  apply andb_true_iff in H as [Hc H]. now rewrite Hc, IH.
Qed.

Lemma take_while_stops f s : stops f s -> take_while f s = EmptyString.
Proof.
  destruct s as [ | c s]; [reflexivity | ]. cbn [stops take_while]. now intros ->.
Qed.

Lemma append_assoc (a b c : string) : ((a ++ b) ++ c = a ++ (b ++ c))%string.
Proof.
  induction a as [ | x a IH]; [reflexivity | ]. cbn [append]. now rewrite IH.
Qed.

Lemma append_nil_r (a : string) : (a ++ "")%string = a.
Proof.
  induction a as [ | x a IH]; [reflexivity | ]. cbn [append]. now rewrite IH.
Qed.

Section Pattern.

(** A label and a class that has no white space, as [\d] and [[\d.]]. *)
Variables (label : string) (cls : ascii -> bool).
Hypothesis no_space : forall c, cls c = true -> is_space c = false.

(** What a match at the start of the text looks like. *)
Lemma match_here_shape s g :
  match_here label cls s = Some g ->
  exists ws rest,
    s = (label ++ ws ++ g ++ rest)%string
    /\ all_chars is_space ws = true
    /\ all_chars cls g = true /\ g <> EmptyString /\ stops cls rest.
Proof.
  unfold match_here.
  destruct (strip_prefix label s) as [r | ] eqn:P; [ | discriminate].
  apply strip_prefix_some in P. subst s.
  intros H.
  exists (take_while is_space r), (drop_while cls (drop_while is_space r)).
  assert (Hg : g = take_while cls (drop_while is_space r)).
  { destruct (take_while cls (drop_while is_space r)); [discriminate | ].
    now injection H. }
  repeat split.
  - rewrite Hg. now rewrite <- take_drop_while, <- take_drop_while.
  - apply TextFacts.take_while_all.
  - rewrite Hg. apply TextFacts.take_while_all.
  - intros ->. rewrite <- Hg in H. discriminate.
  - apply drop_while_stops.
Qed.

Lemma search_shape s g :
  search label cls s = Some g ->
  exists pre ws rest,
    s = (pre ++ label ++ ws ++ g ++ rest)%string
    /\ all_chars is_space ws = true
    /\ all_chars cls g = true /\ g <> EmptyString /\ stops cls rest.
Proof.
  induction s as [ | c s IH]; cbn [search].
  - destruct (match_here label cls "") eqn:E; [ | discriminate].
    intros [= <-]. destruct (match_here_shape _ _ E) as (ws & rest & H).
    exists EmptyString, ws, rest. exact H.
  - destruct (match_here label cls (String c s)) eqn:E.
    + intros [= <-]. destruct (match_here_shape _ _ E) as (ws & rest & H).
      exists EmptyString, ws, rest. exact H.
    + intros H. destruct (IH H) as (pre & ws & rest & -> & Hrest).
      exists (String c pre), ws, rest. split; [reflexivity | exact Hrest].
Qed.

Lemma match_here_found ws c rest :
  all_chars is_space ws = true -> cls c = true ->
  match_here label cls (label ++ ws ++ String c rest)%string
  = Some (String c (take_while cls rest)).
Proof.
  intros Hws Hc. unfold match_here.
  rewrite strip_prefix_app, drop_while_app by exact Hws.
  cbn [drop_while]. rewrite (no_space c Hc). cbn [take_while]. now rewrite Hc.
Qed.

Lemma search_found pre ws c rest :
  all_chars is_space ws = true -> cls c = true ->
  search label cls (pre ++ label ++ ws ++ String c rest)%string <> None.
Proof.
  intros Hws Hc.
  induction pre as [ | a pre IH].
  - cbn [append].
    assert (H : forall s, match_here label cls s <> None -> search label cls s <> None).
    { intros s Hs. destruct s; cbn [search];
        destruct (match_here label cls _); congruence. }
    apply H. rewrite match_here_found by assumption. discriminate.
  - cbn [append search].
    destruct (match_here label cls _); [discriminate | exact IH].
Qed.

(** The pattern finds something exactly in the texts that hold the label,
    white space or none, and a character of the class. *)
Lemma search_occurs s : search label cls s <> None <-> occurs label cls s.
Proof.
  split.
  - destruct (search label cls s) as [g | ] eqn:E; [intros _ | congruence].
    destruct (search_shape _ _ E) as (pre & ws & rest & -> & Hws & Hg & Hne & _).
    destruct g as [ | c g]; [congruence | ].
    apply andb_true_iff in Hg as [Hc _].
    exists pre, ws, c, (g ++ rest)%string. repeat split; assumption.
  - intros (pre & ws & c & rest & -> & Hws & Hc). now apply search_found.
Qed.

(** White space and text before the label are skipped when the label
    cannot start in them. *)
Lemma search_skip a label' pre s :
  label = String a label' ->
  all_chars (fun c => negb (Ascii.eqb a c)) pre = true ->
  search label cls (pre ++ s)%string = search label cls s.
Proof.
  intros -> Hpre. induction pre as [ | c pre IH]; [reflexivity | ].
  cbn [all_chars] in Hpre. apply andb_true_iff in Hpre as [Hc Hpre].
  cbn [append search]. unfold match_here at 1. cbn [strip_prefix].
  apply negb_true_iff in Hc. rewrite Hc. now apply IH.
Qed.

End Pattern.

Lemma digit_no_space c : is_digit c = true -> is_space c = false.
Proof.
  unfold is_digit, is_space. intros H.
  apply andb_true_iff in H as [Hlo Hhi].
  apply Z.leb_le in Hlo. apply Z.leb_le in Hhi.
  repeat (apply orb_false_iff; split);
    try apply andb_false_iff; try apply Z.eqb_neq; try lia.
  all: try (right; apply Z.leb_gt; lia).
Qed.

Lemma digit_or_dot_no_space c : is_digit_or_dot c = true -> is_space c = false.
Proof.
  unfold is_digit_or_dot. intros H. apply orb_true_iff in H as [H | H].
  - now apply digit_no_space.
  - apply Z.eqb_eq in H. unfold is_space. rewrite H. reflexivity.
Qed.

End PatternFacts.

Import PatternFacts.

Lemma search_here label cls s g :
  match_here label cls s = Some g -> search label cls s = Some g.
Proof. intros H. destruct s; cbn [search]; now rewrite H. Qed.

Lemma all_chars_impl (f g : ascii -> bool) s :
  (forall c, f c = true -> g c = true) ->
  all_chars f s = true -> all_chars g s = true.
Proof.
  intros Hfg. induction s as [ | c s IH]; [reflexivity | ].
  cbn [all_chars]. intros H. apply andb_true_iff in H as [Hc H].
  now rewrite (Hfg c Hc), IH.
Qed.

(** A field printed as label, white space, value, and then a character
    outside the class, is found at the start of the text. *)
Lemma search_field label cls ws g rest :
  (forall c, cls c = true -> is_space c = false) ->
  all_chars is_space ws = true ->
  all_chars cls g = true -> g <> EmptyString -> stops cls rest ->
  search label cls (label ++ ws ++ g ++ rest)%string = Some g.
Proof.
  intros Hns Hws Hg Hne Hrest.
  destruct g as [ | c g]; [congruence | ].
  cbn [all_chars] in Hg. apply andb_true_iff in Hg as [Hc Hg].
  apply search_here. cbn [append].
  rewrite (match_here_found label cls Hns) by assumption.
  now rewrite take_while_app, take_while_stops, append_nil_r.
Qed.

(** X1.  The match-count pattern finds something exactly in the texts that
    hold "Matches:", then white space or none, then a digit; the time
    pattern exactly in those that hold "Time(s):", then white space or
    none, then a digit or a point.  The fields may stand anywhere in the
    text and in either order. *)
Theorem pattern_presence (output : string) :
  (match_pattern output <> None <-> occurs "Matches:" is_digit output)
  /\ (time_pattern output <> None <-> occurs "Time(s):" is_digit_or_dot output)
  /\ (missing_field output <->
      ~ occurs "Matches:" is_digit output
      \/ ~ occurs "Time(s):" is_digit_or_dot output).
Proof.
  pose proof (search_occurs "Matches:" is_digit digit_no_space output) as Hm.
  pose proof (search_occurs "Time(s):" is_digit_or_dot digit_or_dot_no_space output)
    as Ht.
  fold (match_pattern output) in Hm. fold (time_pattern output) in Ht.
  split; [exact Hm | split; [exact Ht | ]].
  unfold missing_field. split.
  - intros [H | H]; [left | right]; intros Ho;
      [apply Hm in Ho | apply Ht in Ho]; congruence.
  - intros [H | H]; [left | right].
    + destruct (match_pattern output); [ | reflexivity].
      exfalso. apply H, Hm. discriminate.
    + destruct (time_pattern output); [ | reflexivity].
      exfalso. apply H, Ht. discriminate.
Qed.

(** X2.  The text a pattern captures is the whole run of characters of its
    class after the label and the white space: it is not empty, it lies in
    the class, and what follows it is the end of the text or a character
    outside the class. *)
Theorem pattern_group (output : string) :
  (forall g,
      match_pattern output = Some g ->
      exists pre ws rest,
        output = (pre ++ "Matches:" ++ ws ++ g ++ rest)%string
        /\ all_chars is_space ws = true
        /\ all_chars is_digit g = true /\ g <> EmptyString
        /\ stops is_digit rest)
  /\ (forall g,
         time_pattern output = Some g ->
         exists pre ws rest,
           output = (pre ++ "Time(s):" ++ ws ++ g ++ rest)%string
           /\ all_chars is_space ws = true
           /\ all_chars is_digit_or_dot g = true /\ g <> EmptyString
           /\ stops is_digit_or_dot rest).
Proof.
  split; intros g H; now apply search_shape.
Qed.

(** X3.  A text of the form the programs print, "Matches: m" and
    "Time(s): t" on two lines, gives back [m] and [t]; when the two
    conversions accept them, the pass yields the trial of their values. *)
Theorem conforming_output_parsed (h : host) (m t stderr : string) :
  all_chars is_digit m = true -> m <> EmptyString ->
  all_chars is_digit_or_dot t = true -> t <> EmptyString ->
  match_pattern (Scenarios.printed m t) = Some m
  /\ time_pattern (Scenarios.printed m t) = Some t
  /\ forall v x,
      py_int (int_max_str_digits h) m = Some v -> py_float t = Some x ->
      verdict_of h (Completed 0 (Scenarios.printed m t) stderr)
      = Yields {| t_matches := v; t_time := x |}.
Proof.
  intros Hm Hmne Ht Htne.
  assert (Hmatch : match_pattern (Scenarios.printed m t) = Some m).
  { unfold match_pattern, Scenarios.printed.
    change ("Matches: " ++ m ++ nl ++ "Time(s): " ++ t ++ nl)%string
      with ("Matches:" ++ " " ++ m ++ (nl ++ "Time(s): " ++ t ++ nl))%string.
    apply search_field; auto using digit_no_space. reflexivity. }
  assert (Htime : time_pattern (Scenarios.printed m t) = Some t).
  { unfold time_pattern, Scenarios.printed.
    replace ("Matches: " ++ m ++ nl ++ "Time(s): " ++ t ++ nl)%string
      with (("Matches: " ++ m ++ nl) ++ "Time(s):" ++ " " ++ t ++ nl)%string
      by (rewrite !append_assoc; reflexivity).
    assert (Hpre : all_chars (fun c => negb (Ascii.eqb "T" c))
                             ("Matches: " ++ m ++ nl)%string = true).
    { apply TextFacts.all_chars_app; [reflexivity | ].
      apply TextFacts.all_chars_app; [ | reflexivity].
      apply (all_chars_impl is_digit); [ | exact Hm].
      intros c Hc. apply negb_true_iff, Ascii.eqb_neq. intros <-. discriminate. }
    rewrite (search_skip "Time(s):" is_digit_or_dot "T" "ime(s):" _ _ eq_refl Hpre).
    apply search_field; auto using digit_or_dot_no_space. reflexivity. }
  split; [exact Hmatch | split; [exact Htime | ]].
  intros v x Hv Hx. unfold verdict_of, parse. cbn [Z.eqb].
  rewrite Hmatch, Htime, Hv, Hx. reflexivity.
Qed.

(** Three digits and a time with six decimals. *)
Lemma conforming_output_parsed_witness :
  match_pattern (Scenarios.printed "042" "1.250000") = Some "042"
  /\ time_pattern (Scenarios.printed "042" "1.250000") = Some "1.250000".
Proof.
  destruct (conforming_output_parsed (Scenarios.steady false "") "042" "1.250000" "")
    as (Hm & Ht & _); try reflexivity; try discriminate.
  split; [exact Hm | exact Ht].
Defined.

(** X4.  The count a pattern captured is rejected by [int] only for having
    more digits than the limit of the interpreter allows (never with no
    limit, never for 640 digits or fewer); otherwise its value is the number
    its digits write, which is not negative. *)
Theorem matched_count_conversion (h : host) (output g : string) :
  match_pattern output = Some g ->
  (py_int (int_max_str_digits h) g = None <->
   int_max_str_digits h <> 0%nat
   /\ (640 < String.length g)%nat
   /\ (int_max_str_digits h < String.length g)%nat)
  /\ (forall v, py_int (int_max_str_digits h) g = Some v ->
                v = decimal_value 0 g /\ 0 <= v).
Proof.
  intros H. apply TextFacts.search_group in H as [Hne Hdigits].
  unfold py_int. rewrite Hdigits.
  assert (Hlen : Nat.eqb (String.length g) 0 = false)
    by (destruct g; [congruence | reflexivity]).
  rewrite Hlen. cbn [negb andb].
  destruct (Nat.eqb_spec (int_max_str_digits h) 0) as [H0 | H0];
    destruct (Nat.ltb_spec 640 (String.length g));
    destruct (Nat.ltb_spec (int_max_str_digits h) (String.length g));
    cbn [negb andb]; split;
    try (split; [discriminate | intros (? & ? & ?); lia]);
    try (split; [intros _; repeat split; assumption | reflexivity]);
    try discriminate;
    intros v [= <-]; (split; [reflexivity | ]);
    apply TextFacts.decimal_value_nonneg; auto; lia.
Qed.

(** A count of four digits under the default limit. *)
Lemma matched_count_conversion_witness :
  py_int 4300 "0042" = Some 42.
Proof.
  destruct (matched_count_conversion (Scenarios.steady false "") "Matches: 0042" "0042")
    as [Hnone Hsome]; [reflexivity | ].
  destruct (py_int (int_max_str_digits (Scenarios.steady false "")) "0042")
    as [v | ] eqn:E.
  - destruct (Hsome v eq_refl) as [-> _]. reflexivity.
  - destruct (proj1 Hnone eq_refl) as (_ & Hlong & _). simpl in Hlong. lia.
Defined.

(* ===================================================================== *)
(** * Further properties: signs of the numbers *)
(* ===================================================================== *)

Module SignFacts.

Import Float64 Float64Facts.

Lemma binary_round_aux_nonneg m e l :
  0 <= m -> is_nonneg (binary_round_aux prec emax false m e l) = true.
Proof.
  intros H; unfold binary_round_aux.
  pose proof (shr_fexp_nonneg m e l H) as H1.
  destruct (shr_fexp prec emax m e l) as [mrs' e']; simpl in H1.
  pose proof (shr_fexp_nonneg _ e' loc_Exact
                (round_nearest_even_nonneg _ (loc_of_shr_record mrs') H1)) as H2.
  destruct (shr_fexp prec emax _ e' loc_Exact) as [mrs'' e'']; simpl in H2.
  destruct (shr_m mrs'') as [ | p | p ]; try reflexivity; try lia.
  destruct (e'' <=? emax - prec); reflexivity.
Qed.

Lemma binary_round_nonneg m e :
  is_nonneg (binary_round prec emax false m e) = true.
Proof.
  unfold binary_round. destruct (shl_align m e _) as [mz ez].
  apply binary_round_aux_nonneg. lia.
Qed.

Lemma of_ratio_nonneg n d : 0 <= n -> 0 < d -> is_nonneg (of_ratio n d) = true.
Proof.
  intros Hn Hd; unfold of_ratio.
  destruct n as [ | p | p ]; try reflexivity; try lia.
  unfold SFdiv_core_binary.
  set (s := _ - _ - _).
  set (m' := match s with Z0 => _ | Zpos _ => _ | Zneg _ => _ end).
  assert (Hm : 0 <= m').
  { subst m'; destruct s; try lia. apply Z.shiftl_nonneg; lia. }
  pose proof (Z_div_mod m' d ltac:(lia)) as Hdiv.
  destruct (Z.div_eucl m' d) as [q r].
  apply binary_round_aux_nonneg. nia.
Qed.

Lemma nonneg_not_nan x : is_nonneg x = true -> is_nan x = false.
Proof. destruct x; [reflexivity | reflexivity | discriminate | reflexivity]. Qed.

(** The sum of two numbers that are not negative is not negative. *)
Lemma add_nonneg x y :
  is_nonneg x = true -> is_nonneg y = true -> is_nonneg (add x y) = true.
Proof.
  destruct x as [sx | [ | ] | | [ | ] mx ex], y as [sy | [ | ] | | [ | ] my ey];
    try discriminate; intros _ _; try reflexivity.
  - destruct sx, sy; reflexivity.
  - unfold add, SFadd. cbn [cond_Zopp Z.add binary_normalize].
    apply binary_round_nonneg.
Qed.

Lemma sum_nonneg xs :
  forall a, is_nonneg a = true ->
            Forall (fun x => is_nonneg x = true) xs ->
            is_nonneg (fold_left add xs a) = true.
Proof.
  induction xs as [ | x xs IH]; intros a Ha Hxs; [exact Ha | ].
  inversion Hxs; subst. cbn [fold_left]. apply IH; auto using add_nonneg.
Qed.

(** A number that is not negative, divided by a positive finite number, is
    not negative. *)
Lemma div_nonneg x m e :
  is_nonneg x = true -> is_nonneg (div x (S754_finite false m e)) = true.
Proof.
  destruct x as [sx | [ | ] | | [ | ] mx ex]; try discriminate; intros _;
    try reflexivity.
  unfold div, SFdiv, SFdiv_core_binary.
  set (s := _ - _ - _).
  set (m' := match s with Z0 => _ | Zpos _ => _ | Zneg _ => _ end).
  assert (Hm : 0 <= m').
  { subst m'; destruct s; try lia. apply Z.shiftl_nonneg; lia. }
  pose proof (Z_div_mod m' (Z.pos m) ltac:(lia)) as Hdiv.
  destruct (Z.div_eucl m' (Z.pos m)) as [q r].
  apply binary_round_aux_nonneg. nia.
Qed.

End SignFacts.

(* ===================================================================== *)
(** * Further properties: rows, cells and launches *)
(* ===================================================================== *)

Module SweepFacts.

Import Text Harness HarnessFacts.

Lemma py_float_nonneg s x : py_float s = Some x -> Float64.is_nonneg x = true.
Proof.
  unfold py_float.
  pose proof (TextFacts.take_while_all is_digit s) as Hint.
  destruct (drop_while is_digit s) as [ | c frac].
  - destruct (take_while is_digit s) eqn:E; try discriminate.
    intros [= <-]. apply SignFacts.of_ratio_nonneg; [ | reflexivity].
    exact (TextFacts.decimal_value_nonneg _ Hint 0 (Z.le_refl 0)).
  - destruct ((code c =? 46) && all_chars is_digit frac) eqn:E; try discriminate.
    apply andb_true_iff in E as [_ Hfrac].
    pose proof (TextFacts.all_chars_app _ _ _ Hint Hfrac) as Hall.
    destruct (take_while is_digit s ++ frac)%string eqn:E'; try discriminate.
    intros [= <-]. apply SignFacts.of_ratio_nonneg.
    + exact (TextFacts.decimal_value_nonneg _ Hall 0 (Z.le_refl 0)).
    + apply Z.pow_pos_nonneg; [reflexivity | apply Nat2Z.is_nonneg].
Qed.

(** Where the two values of a parse come from. *)
Lemma parse_fields h stdout m x :
  parse h stdout = Val (Some m, Some x) ->
  (exists g, match_pattern stdout = Some g
             /\ py_int (int_max_str_digits h) g = Some m)
  /\ (exists g, time_pattern stdout = Some g /\ py_float g = Some x).
Proof.
  unfold parse, converted, and_then.
  destruct (match_pattern stdout) as [g | ];
    [destruct (py_int (int_max_str_digits h) g) as [v | ] eqn:Ei | ];
    (destruct (time_pattern stdout) as [g' | ];
     [destruct (py_float g') as [v' | ] eqn:Ef | ]);
    try discriminate; intros [= <- <-];
    split; eexists; (split; [reflexivity | eassumption]).
Qed.

Lemma py_int_nonneg limit g v : py_int limit g = Some v -> 0 <= v.
Proof.
  unfold py_int.
  destruct (all_chars is_digit g) eqn:D; [ | discriminate].
  destruct (negb (Nat.eqb (String.length g) 0)); [ | discriminate].
  cbn [andb]. destruct (_ && _ && _); [discriminate | ].
  intros [= <-]. apply TextFacts.decimal_value_nonneg; auto; lia.
Qed.

(** A trial that is appended has a count and a time that are not
    negative. *)
Lemma yields_nonneg h o t :
  verdict_of h o = Yields t ->
  0 <= t_matches t /\ Float64.is_nonneg (t_time t) = true.
Proof.
  unfold verdict_of.
  destruct o as [returncode stdout stderr | e]; [ | discriminate].
  destruct (returncode =? 0); [ | discriminate].
  destruct (parse h stdout) as [[[m | ] [x | ]] | e] eqn:P; try discriminate.
  intros [= <-]; cbn [t_matches t_time].
  destruct (parse_fields _ _ _ _ P) as [(g & _ & Hg) (g' & _ & Hg')].
  split; [eapply py_int_nonneg | eapply py_float_nonneg]; eauto.
Qed.

Lemma verdicts_nonneg h cmd k n t :
  In t (yields (verdicts h cmd k n)) ->
  0 <= t_matches t /\ Float64.is_nonneg (t_time t) = true.
Proof.
  intros Ht. apply yields_in in Ht. unfold verdicts in Ht.
  apply in_map_iff in Ht as (o & Ho & _). eapply yields_nonneg; eauto.
Qed.

Lemma yields_length vs : (List.length (yields vs) <= List.length vs)%nat.
Proof.
  induction vs as [ | [ | | t] vs IH]; cbn [yields List.length]; lia.
Qed.

Lemma passes_bounds vs :
  vs <> [] -> (1 <= passes vs <= List.length vs)%nat.
Proof.
  induction vs as [ | v vs IH]; [congruence | intros _].
  destruct v; cbn [passes List.length]; try lia;
    (destruct vs as [ | v' vs']; [cbn; lia | ]);
    assert (H : v' :: vs' <> []) by discriminate; specialize (IH H);
    cbn [List.length] in *; lia.
Qed.

(** What a result of [run_experiment] is made of. *)
Lemma run_experiment_result h algorithm_name executable rk pattern_file text_file
      trial_count w c :
  fst (run_experiment h algorithm_name executable rk pattern_file text_file
         trial_count w) = Val (Some c) ->
  let ts := yields (verdicts h (command executable rk pattern_file text_file)
                             (List.length (launches w)) trial_count) in
  ts <> [] /\ summary h algorithm_name rk ts = Val c.
Proof.
  rewrite run_experiment_spec. cbn [fst]. cbv zeta.
  destruct (existsb is_abort _); [discriminate | ].
  destruct (yields _) as [ | t ts]; [discriminate | ].
  destruct (summary h algorithm_name rk (t :: ts)) as [c' | e]; [ | discriminate].
  intros [= ->]. split; [discriminate | reflexivity].
Qed.

(** Counts and extreme times are not negative. *)
Lemma run_experiment_nonneg h algorithm_name executable rk pattern_file text_file
      trial_count w c :
  fst (run_experiment h algorithm_name executable rk pattern_file text_file
         trial_count w) = Val (Some c) ->
  algorithm c = algorithm_name /\ ranks c = rk
  /\ 0 <= matches c
  /\ Float64.is_nonneg (min_time c) = true
  /\ Float64.is_nonneg (max_time c) = true.
Proof.
  intros H. apply run_experiment_result in H as [Hne S]. cbv zeta in *.
  set (ts := yields _) in *.
  pose proof (verdicts_no_nan h (command executable rk pattern_file text_file)
                (List.length (launches w)) trial_count) as Hnan. fold ts in Hnan.
  assert (Hts : forall t, In t ts ->
                          0 <= t_matches t /\ Float64.is_nonneg (t_time t) = true)
    by (intros t Ht; eapply verdicts_nonneg; exact Ht).
  destruct (summary_fields _ _ _ _ _ S)
    as (Ha & Hr & _ & (t0 & rest & Hts0 & Hm) & Hlo & Hhi).
  destruct (py_min_spec _ _ Hnan Hlo) as [Hlo_in _].
  destruct (py_max_spec _ _ Hnan Hhi) as [Hhi_in _].
  apply in_map_iff in Hlo_in as (tlo & Elo & Hlo_in).
  apply in_map_iff in Hhi_in as (thi & Ehi & Hhi_in).
  repeat split; auto.
  - rewrite Hm. apply Hts. rewrite Hts0. now left.
  - rewrite <- Elo. now apply Hts.
  - rewrite <- Ehi. now apply Hts.
Qed.

(** With plain summation the mean of up to three trials is not negative
    either. *)
Lemma run_experiment_mean_nonneg h algorithm_name executable rk pattern_file
      text_file trial_count w c :
  compensated_sum h = false -> (trial_count <= 3)%nat ->
  fst (run_experiment h algorithm_name executable rk pattern_file text_file
         trial_count w) = Val (Some c) ->
  Float64.is_nonneg (time c) = true.
Proof.
  intros Hplain Hcount H. apply run_experiment_result in H as [Hne S].
  cbv zeta in *.
  pose proof (yields_length (verdicts h (command executable rk pattern_file text_file)
                               (List.length (launches w)) trial_count)) as Hlen.
  rewrite verdicts_length in Hlen.
  set (ts := yields _) in *.
  assert (Hts : Forall (fun x => Float64.is_nonneg x = true) (map t_time ts)).
  { apply Forall_forall. intros x Hx. apply in_map_iff in Hx as (t & <- & Ht).
    eapply verdicts_nonneg; exact Ht. }
  destruct (summary_fields _ _ _ _ _ S) as (_ & _ & Ht & _). rewrite Ht.
  assert (Hsum : Float64.is_nonneg (py_sum h (map t_time ts)) = true).
  { unfold py_sum. destruct (map t_time ts) as [ | x xs]; [reflexivity | ].
    rewrite Hplain. inversion Hts; subst.
    apply SignFacts.sum_nonneg; auto. apply SignFacts.add_nonneg; auto. }
  destruct ts as [ | t1 [ | t2 [ | t3 [ | t4 ts]]]];
    [congruence | | | | cbn [List.length] in Hlen; lia];
    apply (SignFacts.div_nonneg _ _ _ Hsum).
Qed.

(** ** Subsequences *)

Lemma subseq_nil_l {A} (l : list A) : subseq [] l.
Proof. induction l; constructor; auto. Qed.

Lemma subseq_app {A} (a b c d : list A) :
  subseq a b -> subseq c d -> subseq (a ++ c) (b ++ d).
Proof.
  intros H; induction H; intros Hcd; cbn [app];
    [exact Hcd | apply subseq_skip; auto | apply subseq_take; auto].
Qed.



Lemma subseq_length {A} (a b : list A) :
  subseq a b -> (List.length a <= List.length b)%nat.
Proof. intros H; induction H; cbn [List.length]; lia. Qed.

End SweepFacts.

Module ShapeFacts.

Import Text Harness HarnessFacts SweepFacts.

Section Shape.

(** A host, a configuration, and a property that every result of
    [run_experiment] with three trials has. *)
Variables (h : host) (cfg : config) (P : cell -> Prop).
Hypothesis results_have_P :
  forall algo_name executable rk w c,
    fst (run_experiment h algo_name executable rk
           (PAT_FILE cfg) (TEXT_FILE cfg) 3 w) = Val (Some c) ->
    P c.

(** The launches of one cell. *)
Lemma cell_launches algo_name executable rk w :
  exists r k,
    run_experiment h algo_name executable rk (PAT_FILE cfg) (TEXT_FILE cfg) 3 w
    = (Val r, snd (run_experiment h algo_name executable rk
                     (PAT_FILE cfg) (TEXT_FILE cfg) 3 w))
    /\ launches (snd (run_experiment h algo_name executable rk
                        (PAT_FILE cfg) (TEXT_FILE cfg) 3 w))
       = launches w
         ++ List.repeat (command executable rk (PAT_FILE cfg) (TEXT_FILE cfg)) k
    /\ (1 <= k <= 3)%nat.
Proof.
  destruct (run_experiment_returns h algo_name executable rk
              (PAT_FILE cfg) (TEXT_FILE cfg) 3 w) as [r Hr].
  set (cmd := command executable rk (PAT_FILE cfg) (TEXT_FILE cfg)).
  exists r, (passes (verdicts h cmd (List.length (launches w)) 3)).
  split; [ | split].
  - rewrite <- Hr. now destruct (run_experiment _ _ _ _ _ _ _ _).
  - rewrite run_experiment_spec. reflexivity.
  - pose proof (passes_bounds (verdicts h cmd (List.length (launches w)) 3)) as Hb.
    rewrite verdicts_length in Hb. apply Hb.
    intros E. apply (f_equal (@List.length _)) in E.
    rewrite verdicts_length in E. discriminate.
Qed.

(** The loop over the ranks: rows, launches and their bounds. *)
Lemma for_ranks_shape algo_name executable rank_configs :
  forall all_results w,
  exists cs ls w',
    for_ranks h cfg algo_name executable rank_configs all_results w
    = (Val (all_results ++ cs), w')
    /\ launches w' = launches w ++ ls
    /\ subseq (map cell_of cs) (map (fun rk => (algo_name, rk)) rank_configs)
    /\ Forall P cs
    /\ (List.length rank_configs <= List.length ls <= 3 * List.length rank_configs)%nat
    /\ Forall (fun cmd =>
                 exists rk, In rk rank_configs
                            /\ cmd = command executable rk
                                             (PAT_FILE cfg) (TEXT_FILE cfg)) ls.
Proof.
  induction rank_configs as [ | rk rest IH]; intros all_results w.
  - exists [], [], w. rewrite !app_nil_r.
    repeat split; try constructor; cbn; lia.
  - rewrite for_ranks_cons. cbn zeta.
    set (w1 := snd (print (Running rk) w)).
    destruct (cell_launches algo_name executable rk w1) as (r & k & Hrun & Hl & Hk).
    set (run := run_experiment h algo_name executable rk
                  (PAT_FILE cfg) (TEXT_FILE cfg) 3 w1) in *.
    assert (Hfst : fst run = Val r) by (rewrite Hrun; reflexivity).
    rewrite Hfst.
    change (launches w1) with (launches w) in Hl.
    set (cmd := command executable rk (PAT_FILE cfg) (TEXT_FILE cfg)) in *.
    assert (Hcmds : Forall (fun c => exists rk', In rk' (rk :: rest)
                                                 /\ c = command executable rk'
                                                          (PAT_FILE cfg) (TEXT_FILE cfg))
                           (List.repeat cmd k)).
    { apply Forall_forall. intros x Hx. apply repeat_spec in Hx. subst x.
      exists rk. split; [now left | reflexivity]. }
    assert (Hlift : forall ls',
               Forall (fun c => exists rk', In rk' rest
                                            /\ c = command executable rk'
                                                     (PAT_FILE cfg) (TEXT_FILE cfg)) ls' ->
               Forall (fun c => exists rk', In rk' (rk :: rest)
                                            /\ c = command executable rk'
                                                     (PAT_FILE cfg) (TEXT_FILE cfg))
                      (List.repeat cmd k ++ ls')).
    { intros ls' H'. apply Forall_app; split; [exact Hcmds | ].
      eapply Forall_impl; [ | exact H']. cbn beta.
      intros c (rk' & Hin & ->). exists rk'. split; [now right | reflexivity]. }
    destruct r as [c | ].
    + destruct (run_experiment_nonneg _ _ _ _ _ _ _ _ _ Hfst) as (Ha & Hr & _).
      destruct (IH (all_results ++ [c])
                   (snd (print (Succeeded (time c) (matches c)) (snd run))))
        as (cs & ls & w' & E & Hl' & Hsub & HP & Hlen & Hcs).
      exists (c :: cs), (List.repeat cmd k ++ ls), w'.
      rewrite E, <- app_assoc. cbn [app].
      split; [reflexivity | ].
      split; [rewrite Hl'; cbn [print snd launches]; rewrite Hl, <- app_assoc;
              reflexivity | ].
      split; [cbn [map]; unfold cell_of at 1; rewrite Ha, Hr;
              now apply subseq_take | ].
      split; [constructor; [eapply results_have_P; exact Hfst | exact HP] | ].
      split; [rewrite length_app, repeat_length; cbn [List.length]; lia | ].
      now apply Hlift.
    + destruct (IH all_results (snd (print Failed (snd run))))
        as (cs & ls & w' & E & Hl' & Hsub & HP & Hlen & Hcs).
      exists cs, (List.repeat cmd k ++ ls), w'.
      rewrite E.
      split; [reflexivity | ].
      split; [rewrite Hl'; cbn [print snd launches]; rewrite Hl, <- app_assoc;
              reflexivity | ].
      split; [cbn [map]; now apply subseq_skip | ].
      split; [exact HP | ].
      split; [rewrite length_app, repeat_length; cbn [List.length]; lia | ].
      now apply Hlift.
Qed.

(** The sweep: rows, launches and their bounds. *)
Lemma for_algorithms_shape algorithms :
  forall all_results w,
  exists cs ls w',
    for_algorithms h cfg algorithms all_results w = (Val (all_results ++ cs), w')
    /\ launches w' = launches w ++ ls
    /\ subseq (map cell_of cs) (cells h cfg algorithms)
    /\ Forall P cs
    /\ (List.length (cells h cfg algorithms) <= List.length ls
        <= 3 * List.length (cells h cfg algorithms))%nat
    /\ Forall (fun cmd =>
                 exists algo_name executable rk,
                   In (algo_name, executable) algorithms
                   /\ path_exists h executable = true
                   /\ In rk (RANK_CONFIGS cfg)
                   /\ cmd = command executable rk (PAT_FILE cfg) (TEXT_FILE cfg)) ls.
Proof.
  induction algorithms as [ | [algo_name executable] rest IH]; intros all_results w.
  - exists [], [], w. rewrite !app_nil_r.
    repeat split; try constructor; cbn; lia.
  - rewrite for_algorithms_cons. cbn zeta.
    set (w1 := snd (print _ w)).
    unfold cells. cbn [flat_map fst snd]. fold (cells h cfg rest).
    destruct (path_exists h executable) eqn:Ex.
    + destruct (for_ranks_shape algo_name executable (RANK_CONFIGS cfg) all_results w1)
        as (cs1 & ls1 & w2 & E1 & Hl1 & Hsub1 & HP1 & Hlen1 & Hcs1).
      rewrite E1.
      destruct (IH (all_results ++ cs1) w2)
        as (cs & ls & w' & E & Hl' & Hsub & HP & Hlen & Hcs).
      exists (cs1 ++ cs), (ls1 ++ ls), w'.
      rewrite E, <- app_assoc.
      split; [reflexivity | ].
      split; [rewrite Hl', Hl1, <- app_assoc; reflexivity | ].
      split; [rewrite map_app; now apply subseq_app | ].
      split; [apply Forall_app; auto | ].
      split; [rewrite !length_app, length_map in *; lia | ].
      apply Forall_app; split.
      * eapply Forall_impl; [ | exact Hcs1]. cbn beta.
        intros c (rk & Hin & ->). exists algo_name, executable, rk.
        repeat split; auto. now left.
      * eapply Forall_impl; [ | exact Hcs]. cbn beta.
        intros c (n & e & rk & Hin & Hp & Hrk & ->). exists n, e, rk.
        repeat split; auto. now right.
    + destruct (IH all_results (snd (print (Line ("  Warning: " ++ executable
                                                   ++ " not found. Skipping.")) w1)))
        as (cs & ls & w' & E & Hl' & Hsub & HP & Hlen & Hcs).
      exists cs, ls, w'. rewrite E. cbn [app].
      split; [reflexivity | ].
      split; [exact Hl' | ].
      split; [exact Hsub | ].
      split; [exact HP | ].
      split; [exact Hlen | ].
      eapply Forall_impl; [ | exact Hcs]. cbn beta.
      intros c (n & e & rk & Hin & Hp & Hrk & ->). exists n, e, rk.
      repeat split; auto. now right.
Qed.

End Shape.


End ShapeFacts.

(* ===================================================================== *)
(** * Further properties of the sweep *)
(* ===================================================================== *)

Import SweepFacts ShapeFacts.

(** X5.  Every row the sweep collects has a match count that is not
    negative and a least and a greatest time that are numbers and not
    negative. *)
Theorem sweep_rows_not_negative (h : host) (cfg : config)
        (algorithms : list (string * string)) (all_results all_results' : list cell)
        (w w' : world) :
  for_algorithms h cfg algorithms all_results w = (Val all_results', w') ->
  exists cs,
    all_results' = all_results ++ cs
    /\ Forall (fun c => 0 <= matches c
                        /\ Float64.is_nonneg (min_time c) = true
                        /\ Float64.is_nan (min_time c) = false
                        /\ Float64.is_nonneg (max_time c) = true
                        /\ Float64.is_nan (max_time c) = false) cs.
Proof.
  intros H.
  destruct (for_algorithms_shape h cfg
              (fun c => 0 <= matches c
                        /\ Float64.is_nonneg (min_time c) = true
                        /\ Float64.is_nan (min_time c) = false
                        /\ Float64.is_nonneg (max_time c) = true
                        /\ Float64.is_nan (max_time c) = false))
    with (algorithms := algorithms) (all_results := all_results) (w := w)
    as (cs & ls & w'' & E & _ & _ & HP & _).
  - intros n e rk w0 c Hc.
    destruct (run_experiment_nonneg _ _ _ _ _ _ _ _ _ Hc) as (_ & _ & Hm & Hlo & Hhi).
    repeat split; auto using SignFacts.nonneg_not_nan.
  - rewrite H in E. injection E as -> _. exists cs. split; [reflexivity | exact HP].
Qed.

(** The sweep of the small registry on the host where only BF is
    installed. *)
Lemma sweep_rows_not_negative_witness :
  exists cs,
    [Scenarios.bf_cell 1 Scenarios.five_quarters;
     Scenarios.bf_cell 2 Scenarios.five_quarters] = [] ++ cs
    /\ Forall (fun c => 0 <= matches c
                        /\ Float64.is_nonneg (min_time c) = true
                        /\ Float64.is_nan (min_time c) = false
                        /\ Float64.is_nonneg (max_time c) = true
                        /\ Float64.is_nan (max_time c) = false) cs.
Proof.
  eapply (sweep_rows_not_negative Scenarios.only_bf Scenarios.small_config
            (ALGORITHMS Scenarios.small_config) [] _ initial).
  vm_compute. reflexivity.
Defined.

(** X6.  With plain summation, the mean time of every row the sweep
    collects is a number and not negative. *)
Theorem sweep_means_not_negative (h : host) (cfg : config)
        (algorithms : list (string * string)) (all_results all_results' : list cell)
        (w w' : world) :
  compensated_sum h = false ->
  for_algorithms h cfg algorithms all_results w = (Val all_results', w') ->
  exists cs,
    all_results' = all_results ++ cs
    /\ Forall (fun c => Float64.is_nonneg (time c) = true
                        /\ Float64.is_nan (time c) = false) cs.
Proof.
  intros Hplain H.
  destruct (for_algorithms_shape h cfg
              (fun c => Float64.is_nonneg (time c) = true
                        /\ Float64.is_nan (time c) = false))
    with (algorithms := algorithms) (all_results := all_results) (w := w)
    as (cs & ls & w'' & E & _ & _ & HP & _).
  - intros n e rk w0 c Hc.
    pose proof (run_experiment_mean_nonneg _ _ _ _ _ _ _ _ _ Hplain
                  (Nat.le_refl 3) Hc).
    split; auto using SignFacts.nonneg_not_nan.
  - rewrite H in E. injection E as -> _. exists cs. split; [reflexivity | exact HP].
Qed.

Lemma sweep_means_not_negative_witness :
  exists cs,
    [Scenarios.bf_cell 1 Scenarios.five_quarters;
     Scenarios.bf_cell 2 Scenarios.five_quarters] = [] ++ cs
    /\ Forall (fun c => Float64.is_nonneg (time c) = true
                        /\ Float64.is_nan (time c) = false) cs.
Proof.
  eapply (sweep_means_not_negative Scenarios.only_bf Scenarios.small_config
            (ALGORITHMS Scenarios.small_config) [] _ initial).
  - reflexivity.
  - vm_compute. reflexivity.
Defined.





(* ===================================================================== *)
(** * Further properties of run_experiment and of the presentation *)
(* ===================================================================== *)

Lemma handled_not_nil algorithm_name rk e : handled algorithm_name rk e <> [].
Proof. destruct e; discriminate. Qed.

Lemma report_abort h algorithm_name rk o :
  verdict_of h o = Aborts -> report h algorithm_name rk o <> [].
Proof.
  unfold verdict_of, report.
  destruct o as [returncode stdout stderr | e]; [ | intros _; apply handled_not_nil].
  destruct (returncode =? 0); [ | discriminate].
  destruct (parse h stdout) as [[[m | ] [t | ]] | e]; try discriminate.
  intros _; apply handled_not_nil.
Qed.

Lemma reports_abort h algorithm_name rk os :
  existsb is_abort (map (verdict_of h) os) = true ->
  reports h algorithm_name rk os <> [].
Proof.
  induction os as [ | o os IH]; [discriminate | ].
  cbn [map existsb reports].
  destruct (verdict_of h o) eqn:V; cbn [is_abort orb].
  - intros _ E. apply app_eq_nil in E as [E _].
    now apply (report_abort h algorithm_name rk o V).
  - intros H E. apply app_eq_nil in E as [_ E]. now apply IH.
  - intros H E. apply app_eq_nil in E as [_ E]. now apply IH.
Qed.

(** X9.  [run_experiment] prints something exactly when one of its passes
    aborts.  So a cell that fails because every trial lacked a field
    fails without a message of its own: [None] is returned, all the passes
    were made, and the output is as it was. *)
Theorem silent_failure (h : host) (algorithm_name executable : string) (rk : Z)
        (pattern_file text_file : string) (trial_count : nat) (w : world) :
  let cmd := command executable rk pattern_file text_file in
  let vs := verdicts h cmd (List.length (launches w)) trial_count in
  let run := run_experiment h algorithm_name executable rk pattern_file text_file
               trial_count w in
  (output (snd run) = output w <-> forall v, In v vs -> v <> Aborts)
  /\ ((forall v, In v vs -> v = Skipped) ->
      run = (Val None,
             {| launches := launches w ++ List.repeat cmd trial_count;
                output := output w |})).
Proof.
  intros cmd vs run. subst run. rewrite run_experiment_spec. fold cmd vs.
  cbn [snd after_passes output].
  fold (outcomes h cmd (List.length (launches w)) trial_count).
  set (os := outcomes h cmd (List.length (launches w)) trial_count).
  assert (Hvs : vs = map (verdict_of h) os) by reflexivity.
  split.
  - rewrite <- existsb_is_abort. split.
    + intros E. destruct (existsb is_abort vs) eqn:A; [ | reflexivity].
      exfalso. rewrite Hvs in A.
      apply (reports_abort h algorithm_name rk os A).
      apply (app_inv_head (output w)). now rewrite app_nil_r.
    + intros A. rewrite Hvs in A.
      now rewrite (reports_silent _ _ _ _ A), app_nil_r.
  - intros Hskip.
    assert (A : existsb is_abort vs = false).
    { apply existsb_is_abort. intros v Hv. rewrite (Hskip v Hv). discriminate. }
    assert (Y : yields vs = []).
    { clear -Hskip. induction vs as [ | v vs' IH]; [reflexivity | ].
      rewrite (Hskip v (or_introl eq_refl)). cbn [yields].
      apply IH. intros v' Hv'. apply Hskip. now right. }
    rewrite A, Y. f_equal. unfold after_passes. fold os. rewrite <- Hvs.
    rewrite (passes_no_abort vs A). unfold vs at 1. rewrite verdicts_length.
    rewrite Hvs in A. now rewrite (reports_silent _ _ _ _ A), app_nil_r.
Qed.

(** X10.  The speedup analysis prints nothing but, for algorithms with a
    baseline row, their name and one line per row of theirs, computed from
    that baseline: no line stands for an algorithm without a row at 1
    rank, and no line carries other values. *)
Theorem analysis_lines_sound (df : list cell) (algos : list string) (w : world) :
  exists evs,
    speedup_analysis df algos w
    = (Val tt, {| launches := launches w; output := output w ++ evs |})
    /\ forall ev,
        In ev evs ->
        (exists algo base,
            In algo algos /\ baseline df algo = Some base
            /\ ev = Print (Line (nl ++ algo ++ ":")))
        \/ (exists base row,
               In row df /\ In (algorithm row) algos
               /\ baseline df (algorithm row) = Some base
               /\ ev = Print (SpeedupLine (ranks row)
                                (Float64.div (time base) (time row))
                                (Float64.mul
                                   (Float64.div
                                      (Float64.div (time base) (time row))
                                      (Float64.of_Z (ranks row)))
                                   Float64.hundred))).
Proof.
  exists (flat_map (analysis_lines df) algos).
  split; [apply speedup_analysis_spec | ].
  intros ev Hev. apply in_flat_map in Hev as (algo & Halgo & Hev).
  unfold analysis_lines in Hev.
  destruct (baseline df algo) as [base | ] eqn:B; [ | destruct Hev].
  destruct Hev as [<- | Hev].
  - left. exists algo, base. auto.
  - right. apply in_map_iff in Hev as (row & <- & Hrow).
    apply rows_of_complete in Hrow as [Hin Ha].
    exists base, row. rewrite Ha. auto.
Qed.

(** X11.  A speedup curve is plotted exactly for the algorithms with a
    baseline row; its points are the rank counts of the rows of the
    algorithm and the time of the baseline divided by their times, the
    speedups the analysis prints. *)
Theorem plotted_speedups (cfg : config) (df : list cell) (algo : string)
        (rs : list Z) (ss : list float) :
  In (algo, rs, ss) (speedup_curves (plots cfg df)) <->
  exists base,
    baseline df algo = Some base
    /\ rs = map ranks (rows_of df algo)
    /\ ss = map (fun row => Float64.div (time base) (time row)) (rows_of df algo).
Proof.
  assert (Hcurve : forall a,
             speedup_curve df a
             = match baseline df a with
               | Some base =>
                   [(a, map ranks (rows_of df a),
                     map (fun row => Float64.div (time base) (time row))
                         (rows_of df a))]
               | None => []
               end).
  { intros a. unfold speedup_curve.
    pose proof (base_times_baseline df a) as H.
    destruct (base_times (rows_of df a)) as [ | b rest];
      destruct (baseline df a) as [base | ]; try discriminate; [reflexivity | ].
    injection H as ->. now rewrite map_map. }
  cbn [plots speedup_curves]. rewrite in_flat_map. split.
  - intros (a & _ & Hin). rewrite Hcurve in Hin.
    destruct (baseline df a) as [base | ] eqn:B; [ | destruct Hin].
    destruct Hin as [[= <- <- <-] | []]. exists base. auto.
  - intros (base & B & -> & ->). exists algo. split.
    + destruct (baseline_row _ _ _ B) as (Hin & <- & _).
      now apply algorithms_of_complete.
    + rewrite Hcurve, B. now left.
Qed.





Lemma cells_empty h cfg :
  ALGORITHMS cfg = [] \/ RANK_CONFIGS cfg = [] ->
  cells h cfg (ALGORITHMS cfg) = [].
Proof.
  intros [E | E]; unfold cells; rewrite E; [reflexivity | ].
  induction (ALGORITHMS cfg) as [ | entry rest IH]; [reflexivity | ].
  cbn [flat_map map]. destruct (path_exists h (snd entry)); exact IH.
Qed.

(** X14.  With an empty registry or an empty list of rank counts, [main]
    launches no child process and ends with the line that no results were
    collected. *)
Theorem empty_configuration (h : host) (cfg : config) (w : world) :
  ALGORITHMS cfg = [] \/ RANK_CONFIGS cfg = [] ->
  exists w',
    main h cfg w = (Val tt, w')
    /\ launches w' = launches w
    /\ last (output w') (Print Failed)
       = Print (Line (nl ++ "No results collected!"))
    /\ filter is_file (output w') = filter is_file (output w).
Proof.
  intros Hempty. apply (cells_empty h) in Hempty.
  destruct (header_spec cfg w) as (hs & Hh & Hhs).
  destruct (for_algorithms_shape h cfg (fun _ => True))
    with (algorithms := ALGORITHMS cfg) (all_results := @nil cell)
         (w := snd (header cfg w))
    as (cs & ls & w1 & E & Hl & Hsub & _ & Hlen & _); [trivial | ].
  rewrite Hempty in Hsub, Hlen.
  assert (Hcs : cs = []).
  { apply subseq_length in Hsub. destruct cs; [reflexivity | cbn in Hsub; lia]. }
  assert (Hls : ls = []) by (destruct ls; [reflexivity | cbn in Hlen; lia]).
  subst cs ls. rewrite app_nil_r in Hl. cbn [app] in E.
  destruct (for_algorithms_spec h cfg (ALGORITHMS cfg) [] (snd (header cfg w)))
    as (acc & w1' & E' & _ & _ & (evs & He & Hevs)).
  rewrite E in E'. injection E' as <- <-.
  exists {| launches := launches w1;
            output := output w1 ++ [Print (Line (nl ++ "No results collected!"))] |}.
  split; [ | split; [ | split]].
  - unfold main. unfold bind at 1. rewrite Hh in E |- *.
    cbn [snd] in E. unfold bind at 1. rewrite E. reflexivity.
  - cbn [launches]. rewrite Hl, Hh. reflexivity.
  - cbn [output]. apply last_last.
  - cbn [output]. rewrite He, Hh. cbn [snd output].
    rewrite !filter_app. cbn [filter is_file]. rewrite app_nil_r.
    assert (Hnone : forall l, Forall (fun e => is_artifact e = false) l ->
                              filter is_file l = []).
    { induction l as [ | e l IH]; [reflexivity | ].
      intros Hl'. inversion Hl'; subst. cbn [filter].
      destruct e as [m | | ]; [ | discriminate | discriminate].
      now apply IH. }
    now rewrite (Hnone hs Hhs), (Hnone evs Hevs), !app_nil_r.
Qed.

Lemma empty_configuration_witness :
  exists w',
    main Scenarios.only_bf
         {| PAT_FILE := "pattern.txt"; TEXT_FILE := "text.txt";
            ALGORITHMS := [("BF", "/opt/bf_mpi")]; RANK_CONFIGS := [] |} initial
    = (Val tt, w')
    /\ launches w' = [].
Proof.
  destruct (empty_configuration Scenarios.only_bf
              {| PAT_FILE := "pattern.txt"; TEXT_FILE := "text.txt";
                 ALGORITHMS := [("BF", "/opt/bf_mpi")]; RANK_CONFIGS := [] |}
              initial)
    as (w' & Hmain & Hl & _).
  - right. reflexivity.
  - exists w'. split; [exact Hmain | exact Hl].
Defined.

(** X15.  What a failure of the first trial leaves behind: one launch, no
    result, and a message by the kind of failure: for a non-zero exit
    status the error line and the captured standard error, whatever the
    standard output holds; for a timeout the timeout line; for any other
    exception the exception line. *)
Theorem first_trial_failure_report (h : host) (algorithm_name executable : string)
        (rk : Z) (pattern_file text_file : string) (trial_count : nat) (w : world) :
  let cmd := command executable rk pattern_file text_file in
  let run := run_experiment h algorithm_name executable rk pattern_file text_file
               (S trial_count) w in
  (forall returncode stdout stderr,
      subprocess_run h (List.length (launches w)) cmd
      = Completed returncode stdout stderr ->
      returncode <> 0 ->
      run = (Val None,
             {| launches := launches w ++ [cmd];
                output := output w
                          ++ [Print (Line ("Error running " ++ algorithm_name
                                             ++ " with " ++ str rk ++ " ranks:"));
                              Print (Line stderr)] |}))
  /\ (subprocess_run h (List.length (launches w)) cmd = Raises TimeoutExpired ->
      run = (Val None,
             {| launches := launches w ++ [cmd];
                output := output w
                          ++ [Print (Line ("Timeout for " ++ algorithm_name
                                             ++ " with " ++ str rk ++ " ranks"))] |}))
  /\ (forall e,
         subprocess_run h (List.length (launches w)) cmd = Raises e ->
         e <> TimeoutExpired ->
         run = (Val None,
                {| launches := launches w ++ [cmd];
                   output := output w ++ [Print (ExceptionRunning algorithm_name e)] |})).
Proof.
  intros cmd run. subst run. rewrite run_experiment_spec. fold cmd.
  unfold after_passes. rewrite verdicts_S, outcomes_S.
  cbn [map passes reports existsb].
  split; [ | split].
  - intros returncode stdout stderr -> Hrc.
    apply Z.eqb_neq in Hrc. cbn [verdict_of report]. rewrite Hrc.
    cbn [is_abort orb passes List.repeat]. now rewrite app_nil_r.
  - intros ->. cbn [verdict_of report handled is_abort orb passes List.repeat].
    now rewrite app_nil_r.
  - intros e -> He. cbn [verdict_of report is_abort orb passes List.repeat].
    rewrite app_nil_r. destruct e; [congruence | | | | ]; reflexivity.
Qed.
